(** * ModelGroup (vkbase, src/ModelGroup.hpp): a shallow embedding.

    The class [vks::ModelGroup] aggregates assimp scenes into shared
    vertex / index buffers, builds a material table and a texture array
    in [prepare], and batches instances into indexed draws in
    [buildCommandBuffer].

    Modelling conventions:
    - [uint32_t] values are [N] kept below [2^32], with the wrap-around of
      [+=] written out by [u32_add];
    - [float] values are modelled as rationals [Q]; rounding, NaN and
      infinities are not modelled;
    - C++ undefined behaviour (out-of-range [operator[]], [memcpy] past the
      end of a buffer, signed loop-counter overflow) is the [UB] outcome of
      the [Exec] monad;
    - the assimp importer and the Vulkan device are external collaborators:
      an import is given as its result ([ImportResult]), GPU buffers are
      modelled by the host data they end up holding. *)

From Stdlib Require Import List NArith ZArith QArith String Bool Lia.
Import ListNotations.

(** ** Machine integers *)

Definition u32_mod : N := 2 ^ 32.

(** [a += b] on a [uint32_t]. *)
Definition u32_add (a b : N) : N := N.modulo (a + b) u32_mod.

(** Conversion of a [uint32_t] to the [int] returned by [addModel]. *)
Definition u32_to_int (n : N) : Z :=
  if (n <? 2 ^ 31)%N then Z.of_N n else (Z.of_N n - 2 ^ 32)%Z.

(** [static_cast<uint32_t>] of a [size_t]. *)
Definition size_to_u32 (n : nat) : N := N.modulo (N.of_nat n) u32_mod.

(** ** Execution outcome: a value, or undefined behaviour *)

Inductive Exec (A : Type) : Type :=
| Ok (a : A)
| UB (why : string).
Arguments Ok {A} a.
Arguments UB {A} why.

Definition bind {A B} (m : Exec A) (f : A -> Exec B) : Exec B :=
  match m with
  | Ok a => f a
  | UB w => UB w
  end.

Notation "'let*' x ':=' m 'in' k" := (bind m (fun x => k))
  (at level 200, x binder, m at level 100, right associativity).

(** [v[i]] on a [std::vector]: no bounds check, out of range is UB. *)
Definition at_ {A} (v : list A) (i : N) (what : string) : Exec A :=
  match nth_error v (N.to_nat i) with
  | Some a => Ok a
  | None => UB what
  end.

(** ** Data model (ModelGroup.hpp, lines 40-77) *)

Record vec3 := mkVec3 { x : Q; y : Q; z : Q }.

Definition vec3_zero : vec3 := mkVec3 0 0 0.

(** [aiColor3D]; the [glm::vec4] colours of [Material] only receive
    their [x], [y], [z] from it, so they are kept as three components. *)
Record color3 := mkColor { r : Q; g : Q; b : Q }.

Definition color_black : color3 := mkColor 0 0 0.

Record Material := mkMaterial {
  Ka : color3; Kd : color3; Ks : color3; Ke : color3;
  Ma : N; Md : N; Me : N;
  Ns : Q; Ni : Q; d : Q; Nm : Q; Nr : Q
}.

Record ModelPart := mkPart {
  vertexBase : N;
  part_vertexCount : N;
  indexBase : N;
  part_indexCount : N;
  materialIdx : N
}.

Record DrawCommand := mkDrawCommand { modelIndex : N; partIndex : N }.

(** [glm::mat4] is kept abstract as its 16 entries. *)
Record InstanceData := mkInstanceData {
  materialIndex : N;
  modelMat : list Q
}.

Record Dimension := mkDim { dmin : vec3; dmax : vec3; dsize : vec3 }.

Definition FLT_MAX : Q := inject_Z (340282346638528859811704183484516925440%Z).

(** [Model::Dimension] defaults: [min = FLT_MAX], [max = -FLT_MAX];
    [size] is left by [glm::vec3()] at zero. *)
Definition dim_default : Dimension :=
  mkDim (mkVec3 FLT_MAX FLT_MAX FLT_MAX)
        (mkVec3 (- FLT_MAX) (- FLT_MAX) (- FLT_MAX)) vec3_zero.

Record Model := mkModel { parts : list ModelPart; dim : Dimension }.

(** [vks::Component] (VulkanModel.hpp, lines 52-61). *)
Inductive Component :=
| VERTEX_COMPONENT_POSITION
| VERTEX_COMPONENT_NORMAL
| VERTEX_COMPONENT_COLOR
| VERTEX_COMPONENT_UV
| VERTEX_COMPONENT_TANGENT
| VERTEX_COMPONENT_BITANGENT
| VERTEX_COMPONENT_DUMMY_FLOAT
| VERTEX_COMPONENT_DUMMY_VEC4.

(** Floats per component, as counted by [VertexLayout::stride()]
    (which returns this number times [sizeof(float)]). *)
Definition componentFloats (c : Component) : nat :=
  match c with
  | VERTEX_COMPONENT_UV => 2
  | VERTEX_COMPONENT_DUMMY_FLOAT => 1
  | VERTEX_COMPONENT_DUMMY_VEC4 => 4
  | _ => 3
  end.

Definition vertexFloats (layout : list Component) : nat :=
  fold_left (fun acc c => (acc + componentFloats c)%nat) layout 0%nat.

(** ** The assimp side: what [Importer.ReadFile] hands back *)

(** An [aiMaterial] seen through the keys [ModelGroup] reads; [None] is a
    key the material does not carry ([Get] then leaves its output alone).
    A missing diffuse texture reads as the empty [aiString]. *)
Record aiMaterial := mkAiMaterial {
  ai_ambient : option color3;
  ai_diffuse : option color3;
  ai_specular : option color3;
  ai_emissive : option color3;
  ai_shininess : option Q;
  ai_diffuseTex : string
}.

(** One vertex of an [aiMesh]: entry [j] of [mVertices], [mNormals],
    [mTextureCoords[0]], [mTangents] and [mBitangents] (assimp keeps these
    arrays [mNumVertices] long). *)
Record aiVertex := mkAiVertex {
  vPos : vec3; vNormal : vec3; vTexCoord : vec3; vTangent : vec3; vBitangent : vec3
}.

Record aiMesh := mkAiMesh {
  mVertices : list aiVertex;
  hasTextureCoords : bool;
  hasTangentsAndBitangents : bool;
  mFaces : list (list N);
  mMaterialIndex : N
}.

Record aiScene := mkAiScene { mMaterials : list aiMaterial; mMeshes : list aiMesh }.

(** [ReadFile] returns a scene, or [nullptr] with [GetErrorString()]. *)
Inductive ImportResult :=
| Scene (sc : aiScene)
| ImportError (diagnostic : string).

(** ** The [ModelGroup] object *)

Record ModelGroup := mkModelGroup {
  instances : list DrawCommand;
  instanceDatas : list InstanceData;
  layout : list Component;
  indexCount : N;
  vertexCount : N;
  vertexBuffer : list Q;
  indexBuffer : list N;
  aiMaterials : list aiMaterial;
  texSize : N;
  models : list Model;
  materials : list Material;
  (** device-local [vertices] / [indices] buffers, once uploaded *)
  vertices : option (list Q);
  indices : option (list N);
  (** host-visible [instanceBuff], once built: the instance data copied in *)
  instanceBuff : option (list InstanceData);
  (** host-visible [materialsBuff], once built: its capacity in entries and
      the materials copied in *)
  materialsBuff : option (N * list Material);
  (** [texArray], once built: its layers' source paths and side length *)
  texArray : option (list string * N)
}.

(** The constructor [ModelGroup(dev, queue)] with the member defaults. *)
Definition newModelGroup : ModelGroup := {|
  instances := []; instanceDatas := [];
  layout := [VERTEX_COMPONENT_POSITION; VERTEX_COMPONENT_NORMAL; VERTEX_COMPONENT_UV];
  indexCount := 0; vertexCount := 0;
  vertexBuffer := []; indexBuffer := []; aiMaterials := [];
  texSize := 1024; models := []; materials := [];
  vertices := None; indices := None;
  instanceBuff := None; materialsBuff := None; texArray := None
|}.

(** ** [buildCommandBuffer] (lines 292-316) *)

(** The arguments of one [vkCmdDrawIndexed]. *)
Record DrawIndexed := mkDrawIndexed {
  dIndexCount : N;
  dInstanceCount : N;
  dFirstIndex : N;
  dVertexOffset : N;
  dFirstInstance : N
}.

(** [models[modIdx].parts[partIdx]]. *)
Definition part_at (ms : list Model) (modIdx partIdx : N) : Exec ModelPart :=
  let* m := at_ ms modIdx "models[modIdx] out of range" in
  at_ (parts m) partIdx "parts[partIdx] out of range".

Definition drawIndexed (ms : list Model) (modIdx partIdx instCount instOffset : N)
  : Exec DrawIndexed :=
  let* p := part_at ms modIdx partIdx in
  Ok (mkDrawIndexed (part_indexCount p) instCount (indexBase p) (vertexBase p) instOffset).

(** The loop state: [modIdx], [partIdx], [instCount], [instOffset] and the
    draws recorded so far. *)
Record BcbState := mkBcb {
  b_modIdx : N; b_partIdx : N; b_instCount : N; b_instOffset : N;
  b_cmds : list DrawIndexed
}.

(** The [for (int i = ...)] loop, [i] running over the suffix [l]. *)
Fixpoint bcb_loop (ms : list Model) (l : list DrawCommand) (i : nat) (st : BcbState)
  : Exec BcbState :=
  match l with
  | [] => Ok st
  | c :: l' =>
      let* st1 :=
        if negb (N.eqb (b_modIdx st) (modelIndex c)) || negb (N.eqb (b_partIdx st) (partIndex c))
        then
          let* dc := drawIndexed ms (b_modIdx st) (b_partIdx st) (b_instCount st) (b_instOffset st) in
          Ok (mkBcb (modelIndex c) (partIndex c) 0 (N.of_nat i) (b_cmds st ++ [dc]))
        else Ok st in
      bcb_loop ms l' (S i)
        (mkBcb (b_modIdx st1) (b_partIdx st1) (u32_add (b_instCount st1) 1)
               (b_instOffset st1) (b_cmds st1))
  end.

(** After the loop (lines 311-315): flush the last run, if any. *)
Definition bcb_finish (ms : list Model) (st : BcbState) : Exec (list DrawIndexed) :=
  if N.eqb (b_instCount st) 0 then Ok (b_cmds st)
  else
    let* dc := drawIndexed ms (b_modIdx st) (b_partIdx st) (b_instCount st) (b_instOffset st) in
    Ok (b_cmds st ++ [dc]).

(** The draws recorded into [cmdBuff].  [instances[0]] is read before
    anything else; the [int] counter [i] overflows (UB) once the vector
    holds [2^31] entries. *)
Definition buildCommandBuffer (s : ModelGroup) : Exec (list DrawIndexed) :=
  let* c0 := at_ (instances s) 0 "instances[0] on an empty vector" in
  if (2 ^ 31 <=? N.of_nat (List.length (instances s)))%N then UB "int loop counter overflow"
  else
    let* st := bcb_loop (models s) (instances s) 0 (mkBcb (modelIndex c0) (partIndex c0) 0 0 []) in
    bcb_finish (models s) st.

(** ** Field updates of [ModelGroup] *)

Definition set_geometry (s : ModelGroup) (vc : N) (vb : list Q) (ib : list N) (ic : N)
  : ModelGroup :=
  {| instances := instances s; instanceDatas := instanceDatas s; layout := layout s;
     indexCount := ic; vertexCount := vc; vertexBuffer := vb; indexBuffer := ib;
     aiMaterials := aiMaterials s; texSize := texSize s; models := models s;
     materials := materials s; vertices := vertices s; indices := indices s;
     instanceBuff := instanceBuff s; materialsBuff := materialsBuff s;
     texArray := texArray s |}.

Definition set_aiMaterials (s : ModelGroup) (ams : list aiMaterial) : ModelGroup :=
  {| instances := instances s; instanceDatas := instanceDatas s; layout := layout s;
     indexCount := indexCount s; vertexCount := vertexCount s;
     vertexBuffer := vertexBuffer s; indexBuffer := indexBuffer s;
     aiMaterials := ams; texSize := texSize s; models := models s;
     materials := materials s; vertices := vertices s; indices := indices s;
     instanceBuff := instanceBuff s; materialsBuff := materialsBuff s;
     texArray := texArray s |}.

Definition set_models (s : ModelGroup) (ms : list Model) : ModelGroup :=
  {| instances := instances s; instanceDatas := instanceDatas s; layout := layout s;
     indexCount := indexCount s; vertexCount := vertexCount s;
     vertexBuffer := vertexBuffer s; indexBuffer := indexBuffer s;
     aiMaterials := aiMaterials s; texSize := texSize s; models := ms;
     materials := materials s; vertices := vertices s; indices := indices s;
     instanceBuff := instanceBuff s; materialsBuff := materialsBuff s;
     texArray := texArray s |}.

(** ** [addModel] (lines 363-513) *)

(** [aiMat->Get(key, out)]: [out] is left untouched when the key is absent. *)
Definition aiGet {A} (key : option A) (out : A) : A :=
  match key with Some v => v | None => out end.

Definition fmax (a b : Q) : Q := if Qle_bool a b then b else a.
Definition fmin (a b : Q) : Q := if Qle_bool a b then a else b.

(** The floats pushed for one layout component of one vertex
    (lines 428-477): position and normal have their Y negated. *)
Definition componentData (pColor : color3) (hasTex hasTan : bool) (v : aiVertex)
    (c : Component) : list Q :=
  let pPos := vPos v in
  let pNormal := vNormal v in
  let pTexCoord := if hasTex then vTexCoord v else vec3_zero in
  let pTangent := if hasTan then vTangent v else vec3_zero in
  let pBiTangent := if hasTan then vBitangent v else vec3_zero in
  match c with
  | VERTEX_COMPONENT_POSITION => [x pPos; - y pPos; z pPos]
  | VERTEX_COMPONENT_NORMAL => [x pNormal; - y pNormal; z pNormal]
  | VERTEX_COMPONENT_UV => [x pTexCoord; y pTexCoord]
  | VERTEX_COMPONENT_COLOR => [r pColor; g pColor; b pColor]
  | VERTEX_COMPONENT_TANGENT => [x pTangent; y pTangent; z pTangent]
  | VERTEX_COMPONENT_BITANGENT => [x pBiTangent; y pBiTangent; z pBiTangent]
  | VERTEX_COMPONENT_DUMMY_FLOAT => [0]
  | VERTEX_COMPONENT_DUMMY_VEC4 => [0; 0; 0; 0]
  end.

Definition vertexData (lay : list Component) (pColor : color3) (hasTex hasTan : bool)
    (v : aiVertex) : list Q :=
  flat_map (componentData pColor hasTex hasTan v) lay.

(** Lines 479-485: the running bounding box takes the raw [pPos]. *)
Definition growDim (dm : Dimension) (p : vec3) : Dimension :=
  mkDim (mkVec3 (fmin (x p) (x (dmin dm))) (fmin (y p) (y (dmin dm))) (fmin (z p) (z (dmin dm))))
        (mkVec3 (fmax (x p) (x (dmax dm))) (fmax (y p) (y (dmax dm))) (fmax (z p) (z (dmax dm))))
        (dsize dm).

(** One iteration of the vertex loop (lines 426-486). *)
Definition addVertex (lay : list Component) (pColor : color3) (hasTex hasTan : bool)
    (acc : list Q * Dimension) (v : aiVertex) : list Q * Dimension :=
  (fst acc ++ vertexData lay pColor hasTex hasTan v, growDim (snd acc) (vPos v)).

(** One iteration of the face loop (lines 492-502): the index buffer,
    [model.parts[i].indexCount] and the global [indexCount]. *)
Definition addFace (acc : list N * N * N) (face : list N) : list N * N * N :=
  let '(ib, partIc, ic) := acc in
  match face with
  | [i0; i1; i2] => (ib ++ [i0; i1; i2], u32_add partIc 3, u32_add ic 3)
  | _ => acc
  end.

Definition vsub (a c : vec3) : vec3 := mkVec3 (x a - x c) (y a - y c) (z a - z c).

(** The body of the mesh loop for one [aiMesh] (lines 412-502). *)
Definition loadMesh (sc : aiScene) (materialOffset : N) (s : ModelGroup) (dm : Dimension)
    (mesh : aiMesh) : Exec (ModelGroup * Dimension * ModelPart) :=
  let mNumVertices := N.of_nat (List.length (mVertices mesh)) in
  let vBase := vertexCount s in
  let iBase := indexCount s in
  let vc := u32_add (vertexCount s) mNumVertices in
  let* mat := at_ (mMaterials sc) (mMaterialIndex mesh) "mMaterials[mMaterialIndex] out of range" in
  let pColor := aiGet (ai_diffuse mat) color_black in
  let '(vb, dm1) :=
    fold_left (addVertex (layout s) pColor (hasTextureCoords mesh) (hasTangentsAndBitangents mesh))
              (mVertices mesh) (vertexBuffer s, dm) in
  let dm2 := mkDim (dmin dm1) (dmax dm1) (vsub (dmax dm1) (dmin dm1)) in
  let '(ib, partIc, ic) := fold_left addFace (mFaces mesh) (indexBuffer s, 0%N, indexCount s) in
  Ok (set_geometry s vc vb ib ic, dm2,
      mkPart vBase mNumVertices iBase partIc (u32_add (mMaterialIndex mesh) materialOffset)).

Fixpoint loadMeshes (sc : aiScene) (materialOffset : N) (s : ModelGroup) (dm : Dimension)
    (ms : list aiMesh) : Exec (ModelGroup * Dimension * list ModelPart) :=
  match ms with
  | [] => Ok (s, dm, [])
  | m :: ms' =>
      let* r1 := loadMesh sc materialOffset s dm m in
      let '(s1, dm1, p) := r1 in
      let* r2 := loadMeshes sc materialOffset s1 dm1 ms' in
      let '(s2, dm2, ps) := r2 in
      Ok (s2, dm2, p :: ps)
  end.

Definition newline : string := String (Ascii.ascii_of_nat 10) EmptyString.

(** [addModel(filename, flags)] given what the importer returned: the
    returned [int], the new object state, and the lines printed. *)
Definition addModel (s : ModelGroup) (filename : string) (imp : ImportResult)
  : Exec (Z * ModelGroup * list string) :=
  match imp with
  | Scene sc =>
      let modelIndex := size_to_u32 (List.length (models s)) in
      let materialOffset := size_to_u32 (List.length (aiMaterials s)) in
      let s1 := set_aiMaterials s (aiMaterials s ++ mMaterials sc) in
      let* r := loadMeshes sc materialOffset s1 dim_default (mMeshes sc) in
      let '(s2, dm, ps) := r in
      Ok (u32_to_int modelIndex, set_models s2 (models s2 ++ [mkModel ps dm]), [])
  | ImportError err =>
      Ok ((-1)%Z, s,
          [("Error parsing '" ++ filename ++ "': '" ++ err ++ "'" ++ newline)%string])
  end.

Definition set_materials (s : ModelGroup) (mats : list Material) : ModelGroup :=
  {| instances := instances s; instanceDatas := instanceDatas s; layout := layout s;
     indexCount := indexCount s; vertexCount := vertexCount s;
     vertexBuffer := vertexBuffer s; indexBuffer := indexBuffer s;
     aiMaterials := aiMaterials s; texSize := texSize s; models := models s;
     materials := mats; vertices := vertices s; indices := indices s;
     instanceBuff := instanceBuff s; materialsBuff := materialsBuff s;
     texArray := texArray s |}.

Definition set_device (s : ModelGroup) (vs : option (list Q)) (is : option (list N))
    (ib : option (list InstanceData)) (mb : option (N * list Material))
    (ta : option (list string * N)) : ModelGroup :=
  {| instances := instances s; instanceDatas := instanceDatas s; layout := layout s;
     indexCount := indexCount s; vertexCount := vertexCount s;
     vertexBuffer := vertexBuffer s; indexBuffer := indexBuffer s;
     aiMaterials := aiMaterials s; texSize := texSize s; models := models s;
     materials := materials s; vertices := vs; indices := is;
     instanceBuff := ib; materialsBuff := mb; texArray := ta |}.

(** ** [prepare] (lines 162-290) *)

(** [std::find(mapDic.begin(), mapDic.end(), p) != mapDic.end()]. *)
Definition mem (p : string) (mapDic : list string) : bool :=
  existsb (String.eqb p) mapDic.

(** One iteration of the first loop of [prepare] (lines 166-178). *)
Definition addMapPath (mapDic : list string) (mat : aiMaterial) : list string :=
  let Md := ai_diffuseTex mat in
  if Nat.eqb (String.length Md) 0 then mapDic
  else if mem Md mapDic then mapDic
  else mapDic ++ [Md].

Definition buildMapDic (ams : list aiMaterial) : list string :=
  fold_left addMapPath ams [].

(** [std::distance(mapDic.begin(), std::find(...))], when found. *)
Fixpoint find_index (p : string) (mapDic : list string) : option N :=
  match mapDic with
  | [] => None
  | q :: l => if String.eqb p q then Some 0%N else option_map N.succ (find_index p l)
  end.

(** The body of the second loop of [prepare] (lines 184-221): one
    [Material], from its defaults and the keys of [aiMat].  The same
    [pColor] is reused by the four colour reads. *)
Definition packMaterial (mapDic : list string) (aiMat : aiMaterial) : Material :=
  let pColor := color_black in
  let ka := aiGet (ai_ambient aiMat) pColor in
  let kd := aiGet (ai_diffuse aiMat) ka in
  let ks := aiGet (ai_specular aiMat) kd in
  let ke := aiGet (ai_emissive aiMat) ks in
  let ns := aiGet (ai_shininess aiMat) 0 in
  let nr := if Qeq_bool ns 0 then 0.2 else 10 / ns in
  let nm := 0.9 in
  let md := match find_index (ai_diffuseTex aiMat) mapDic with
            | Some i => i
            | None => 0%N
            end in
  mkMaterial ka kd ks ke 0 md 0 ns 1.5 1.0 nm nr.

(** [buildInstanceBuffer] (lines 328-354): the old buffer, if any, is
    released after [vkDeviceWaitIdle]; the new one has exactly the size of
    [instanceDatas], which [updateInstancesBuffer] copies in. *)
Definition buildInstanceBuffer (s : ModelGroup) : ModelGroup :=
  set_device s (vertices s) (indices s) (Some (instanceDatas s)) (materialsBuff s) (texArray s).

(** [sizeof(vks::Material)] and [sizeof(ModelGroup::Material)] are both
    96 bytes, so the buffer of [buildMaterialBuffer] holds 256 entries. *)
Definition materialBufferEntries : N := 256.

(** [updateMaterialBuffer] (lines 359-361): [memcpy] of
    [materials.size()] entries into the mapped buffer. *)
Definition updateMaterialBuffer (s : ModelGroup) : Exec ModelGroup :=
  match materialsBuff s with
  | None => UB "memcpy to an unmapped materialsBuff"
  | Some (cap, _) =>
      if (cap <? N.of_nat (List.length (materials s)))%N
      then UB "memcpy past the end of materialsBuff"
      else Ok (set_device s (vertices s) (indices s) (instanceBuff s)
                 (Some (cap, materials s)) (texArray s))
  end.

(** [buildMaterialBuffer] (lines 318-327). *)
Definition buildMaterialBuffer (s : ModelGroup) : Exec ModelGroup :=
  updateMaterialBuffer
    (set_device s (vertices s) (indices s) (instanceBuff s)
       (Some (materialBufferEntries, [])) (texArray s)).

Definition prepare (s : ModelGroup) : Exec ModelGroup :=
  let mapDic := buildMapDic (aiMaterials s) in
  let s1 := set_materials s (materials s ++ map (packMaterial mapDic) (aiMaterials s)) in
  (* staging upload of [vertexBuffer] and [indexBuffer] (lines 225-280) *)
  let s2 := set_device s1 (Some (vertexBuffer s1)) (Some (indexBuffer s1))
              (instanceBuff s1) (materialsBuff s1) (texArray s1) in
  if Nat.eqb (List.length mapDic) 0 then Ok s2
  else
    let s3 := set_device s2 (vertices s2) (indices s2) (instanceBuff s2) (materialsBuff s2)
                (Some (mapDic, texSize s2)) in
    let s4 := buildInstanceBuffer s3 in
    buildMaterialBuffer s4.

(** ** [vks::Model::loadFromFile] (VulkanModel.hpp, lines 185-674) *)

Record vec4 := mkVec4 { v4x : Q; v4y : Q; v4z : Q; v4w : Q }.

Definition vec4_zero : vec4 := mkVec4 0 0 0 0.

(** [vks::Material] (lines 36-49): no member initializers. *)
Record VksMaterial := mkVksMaterial {
  vKa : vec4; vKd : vec4; vKs : vec4; vKe : vec4;
  vMa : N; vMd : N; vMe : N;
  vNs : Q; vNi : Q; vd : Q; pad1 : Q; pad2 : Q
}.

(** What [materials.resize(n)] puts in: a value-initialized, all-zero
    [vks::Material]. *)
Definition vksMaterial_zero : VksMaterial :=
  mkVksMaterial vec4_zero vec4_zero vec4_zero vec4_zero 0 0 0 0 0 0 0 0.

(** [vks::ModelCreateInfo] (lines 100-121). *)
Record ModelCreateInfo := mkCreateInfo { ci_center : vec3; ci_scale : vec3; ci_uvscale : Q * Q }.

(** The state of a [vks::Model] that [loadFromFile] touches; the device
    buffers and the texture array are modelled by the data they hold. *)
Record VksModel := mkVksModel {
  vm_indexCount : N;
  vm_vertexCount : N;
  vm_materials : list VksMaterial;
  vm_parts : list ModelPart;
  vm_dim : Dimension;
  vm_vertices : option (list Q);
  vm_indices : option (list N);
  vm_texArray : option (list string * N)
}.

(** A [vks::Model] as declared (lines 123-157). *)
Definition newVksModel : VksModel :=
  mkVksModel 0 0 [] [] dim_default None None None.

(** The [xyz] of a [glm::vec4] set from an [aiColor3D]. *)
Definition set_xyz (v : vec4) (c : color3) : vec4 := mkVec4 (r c) (g c) (b c) (v4w v).

(** The body of the material loop (lines 466-507) on [materials[i]],
    value-initialized by [resize]: the same [pColor] is reused by the four
    colour reads; [Md] is set only when the path is in [mapDic].  The
    [std::cout] line of that case is not modelled. *)
Definition vksLoadMaterial (mapDic : list string) (mat : aiMaterial) : VksMaterial :=
  let m0 := vksMaterial_zero in
  let pColor := color_black in
  let ka := aiGet (ai_ambient mat) pColor in
  let kd := aiGet (ai_diffuse mat) ka in
  let ks := aiGet (ai_specular mat) kd in
  let ke := aiGet (ai_emissive mat) ks in
  let ns := aiGet (ai_shininess mat) (vNs m0) in
  let md := match find_index (ai_diffuseTex mat) mapDic with
            | Some i => i
            | None => vMd m0
            end in
  mkVksMaterial (set_xyz (vKa m0) ka) (set_xyz (vKd m0) kd) (set_xyz (vKs m0) ks)
    (set_xyz (vKe m0) ke) (vMa m0) md (vMe m0) ns (vNi m0) (vd m0) (pad1 m0) (pad2 m0).

(** The floats pushed for one layout component (lines 530-576): position
    scaled, Y-negated and centred, UV scaled, the rest as in
    [ModelGroup::addModel]. *)
Definition vksComponentData (scale center : vec3) (uvscale : Q * Q) (pColor : color3)
    (hasTex hasTan : bool) (v : aiVertex) (c : Component) : list Q :=
  let pPos := vPos v in
  let pTexCoord := if hasTex then vTexCoord v else vec3_zero in
  match c with
  | VERTEX_COMPONENT_POSITION =>
      [x pPos * x scale + x center; (- y pPos) * y scale + y center; z pPos * z scale + z center]
  | VERTEX_COMPONENT_UV => [x pTexCoord * fst uvscale; y pTexCoord * snd uvscale]
  | _ => componentData pColor hasTex hasTan v c
  end.

(** The running state of the mesh loop: the local [vertexBuffer] and
    [indexBuffer], the members [vertexCount], [indexCount] and [dim]. *)
Record VksLoad := mkVksLoad {
  l_vertexBuffer : list Q; l_indexBuffer : list N;
  l_vertexCount : N; l_indexCount : N; l_dim : Dimension
}.

(** The body of the mesh loop for one [aiMesh] (lines 509-603). *)
Definition vksLoadMesh (lay : list Component) (scale center : vec3) (uvscale : Q * Q)
    (sc : aiScene) (st : VksLoad) (mesh : aiMesh) : Exec (VksLoad * ModelPart) :=
  let mNumVertices := N.of_nat (List.length (mVertices mesh)) in
  let vBase := l_vertexCount st in
  let iBase := l_indexCount st in
  let vc := u32_add (l_vertexCount st) mNumVertices in
  let* mat := at_ (mMaterials sc) (mMaterialIndex mesh) "mMaterials[mMaterialIndex] out of range" in
  let pColor := aiGet (ai_diffuse mat) color_black in
  let '(vb, dm1) :=
    fold_left (fun acc v =>
                 (fst acc ++ flat_map (vksComponentData scale center uvscale pColor
                                         (hasTextureCoords mesh) (hasTangentsAndBitangents mesh) v) lay,
                  growDim (snd acc) (vPos v)))
              (mVertices mesh) (l_vertexBuffer st, l_dim st) in
  let dm2 := mkDim (dmin dm1) (dmax dm1) (vsub (dmax dm1) (dmin dm1)) in
  let '(ib, partIc, ic) := fold_left addFace (mFaces mesh) (l_indexBuffer st, 0%N, l_indexCount st) in
  Ok (mkVksLoad vb ib vc ic dm2, mkPart vBase mNumVertices iBase partIc (mMaterialIndex mesh)).

Fixpoint vksLoadMeshes (lay : list Component) (scale center : vec3) (uvscale : Q * Q)
    (sc : aiScene) (st : VksLoad) (ms : list aiMesh) : Exec (VksLoad * list ModelPart) :=
  match ms with
  | [] => Ok (st, [])
  | m :: ms' =>
      let* r1 := vksLoadMesh lay scale center uvscale sc st m in
      let '(st1, p) := r1 in
      let* r2 := vksLoadMeshes lay scale center uvscale sc st1 ms' in
      let '(st2, ps) := r2 in
      Ok (st2, p :: ps)
  end.

(** The side length of the texture array built by [loadFromFile]. *)
Definition vksTexSize : N := 1024.

(** [loadFromFile(filename, layout, createInfo, device, copyQueue, flags)]
    given what the importer returned: the returned [bool], the new model
    state, and the lines printed on failure.  The texture array is built
    (lines 238-445) only when the scene has a diffuse texture; otherwise
    the one from an earlier load stays.  [parts], [materials] and the
    counters are reset, [dim] is not. *)
Definition loadFromFile (m : VksModel) (filename : string) (lay : list Component)
    (createInfo : option ModelCreateInfo) (imp : ImportResult)
  : Exec (bool * VksModel * list string) :=
  match imp with
  | Scene sc =>
      let mapDic := buildMapDic (mMaterials sc) in
      let ta := if Nat.eqb (List.length mapDic) 0 then vm_texArray m
                else Some (mapDic, vksTexSize) in
      let '(scale, uvscale, center) :=
        match createInfo with
        | Some ci => (ci_scale ci, ci_uvscale ci, ci_center ci)
        | None => (mkVec3 1 1 1, (1, 1), vec3_zero)
        end in
      let mats := map (vksLoadMaterial mapDic) (mMaterials sc) in
      let* r := vksLoadMeshes lay scale center uvscale sc
                  (mkVksLoad [] [] 0 0 (vm_dim m)) (mMeshes sc) in
      let '(st, ps) := r in
      Ok (true, mkVksModel (l_indexCount st) (l_vertexCount st) mats ps (l_dim st)
                  (Some (l_vertexBuffer st)) (Some (l_indexBuffer st)) ta, [])
  | ImportError err =>
      Ok (false, m,
          [("Error parsing '" ++ filename ++ "': '" ++ err ++ "'" ++ newline)%string])
  end.

(** [loadFromFile(filename, layout, float scale, device, copyQueue, flags)]
    (lines 686-690): [ModelCreateInfo(scale, 1.0f, 0.0f)]. *)
Definition loadFromFile_scale (m : VksModel) (filename : string) (lay : list Component)
    (scale : Q) (imp : ImportResult) : Exec (bool * VksModel * list string) :=
  loadFromFile m filename lay
    (Some (mkCreateInfo (mkVec3 0 0 0) (mkVec3 scale scale scale) (1, 1))) imp.

(** ** Spec side of the draw batching: maximal runs of equal keys *)

Definition key_eqb (a c : DrawCommand) : bool :=
  N.eqb (modelIndex a) (modelIndex c) && N.eqb (partIndex a) (partIndex c).

(** The maximal contiguous runs of equal [(model, part)] keys, each with
    its length. *)
Fixpoint group (l : list DrawCommand) : list (DrawCommand * nat) :=
  match l with
  | [] => []
  | c :: l' =>
      match group l' with
      | (c', n) :: g => if key_eqb c c' then (c, S n) :: g else (c, 1%nat) :: (c', n) :: g
      | [] => [(c, 1%nat)]
      end
  end.

(** Each run with the offset of its first element. *)
Fixpoint place (off : nat) (g : list (DrawCommand * nat)) : list (DrawCommand * nat * nat) :=
  match g with
  | [] => []
  | (c, n) :: g' => (c, n, off) :: place (off + n) g'
  end.

Definition runs (l : list DrawCommand) : list (DrawCommand * nat * nat) := place 0 (group l).

(** One draw per run: that run's part geometry, [instanceCount] the run
    length, [firstInstance] the run's first offset. *)
Definition run_draw (ms : list Model) (rn : DrawCommand * nat * nat) : Exec DrawIndexed :=
  let '(c, n, off) := rn in
  drawIndexed ms (modelIndex c) (partIndex c) (N.of_nat n) (N.of_nat off).

Fixpoint run_draws (ms : list Model) (rs : list (DrawCommand * nat * nat))
  : Exec (list DrawIndexed) :=
  match rs with
  | [] => Ok []
  | rn :: rs' =>
      let* d := run_draw ms rn in
      let* ds := run_draws ms rs' in
      Ok (d :: ds)
  end.

(** The runs partition the list, are non-empty, and two neighbouring runs
    have different keys. *)
Definition runs_flatten (rs : list (DrawCommand * nat * nat)) : list DrawCommand :=
  flat_map (fun rn => let '(c, n, _) := rn in repeat c n) rs.

Fixpoint neighbours_differ (rs : list (DrawCommand * nat * nat)) : Prop :=
  match rs with
  | (c, _, _) :: (((c', _, _) :: _) as rs') => c <> c' /\ neighbours_differ rs'
  | _ => True
  end.

(** ** A concrete group: two models, instances [(M0,P0),(M0,P0),(M1,P1),(M0,P0)] *)

Definition part_example (vb ib ic : N) : ModelPart := mkPart vb 3 ib ic 0.

Definition batching_example : ModelGroup :=
  {| instances := [mkDrawCommand 0 0; mkDrawCommand 0 0; mkDrawCommand 1 1; mkDrawCommand 0 0];
     instanceDatas := [];
     layout := layout newModelGroup;
     indexCount := 0; vertexCount := 0; vertexBuffer := []; indexBuffer := [];
     aiMaterials := []; texSize := 1024;
     models := [mkModel [part_example 0 0 3] dim_default;
                mkModel [part_example 3 3 6; part_example 6 9 3] dim_default];
     materials := []; vertices := None; indices := None;
     instanceBuff := None; materialsBuff := None; texArray := None |}.

(** ** Spec side of the aggregation *)

(** A face the code keeps: exactly 3 indices. *)
Definition is_triangle (f : list N) : bool := Nat.eqb (List.length f) 3.

Definition triangles (faces : list (list N)) : list (list N) := filter is_triangle faces.

(** Sums over all parts of all models. *)
Definition sum_parts (f : ModelPart -> N) (ms : list Model) : N :=
  fold_right (fun m acc => (fold_right (fun p a => f p + a) 0 (parts m) + acc)%N) 0%N ms.

(** A sequence of [addModel] calls on scenes the importer parsed. *)
Fixpoint addModels (s : ModelGroup) (scs : list (string * aiScene)) : Exec ModelGroup :=
  match scs with
  | [] => Ok s
  | (f, sc) :: scs' =>
      let* res := addModel s f (Scene sc) in
      let '(_, s1, _) := res in
      addModels s1 scs'
  end.

(** All vertices of a scene, mesh after mesh. *)
Definition all_vertices (sc : aiScene) : list aiVertex := flat_map mVertices (mMeshes sc).

(** The diffuse colour [addModel] reads for a mesh (line 424). *)
Definition meshColor (sc : aiScene) (mesh : aiMesh) : color3 :=
  match nth_error (mMaterials sc) (N.to_nat (mMaterialIndex mesh)) with
  | Some mat => aiGet (ai_diffuse mat) color_black
  | None => color_black
  end.

(** ** Concrete scenes *)

Definition plain_material : aiMaterial := mkAiMaterial None None None None None "".

Definition vertex_at (px py pz : Q) : aiVertex :=
  mkAiVertex (mkVec3 px py pz) (mkVec3 0 1 0) vec3_zero vec3_zero vec3_zero.

(** A mesh of three vertices and the triangle [0,1,2]. *)
Definition triangle_mesh : aiMesh :=
  mkAiMesh [vertex_at 0 0 0; vertex_at 1 0 0; vertex_at 0 1 0] false false [[0; 1; 2]%N] 0.

Definition two_triangles_scene : aiScene :=
  mkAiScene [plain_material] [triangle_mesh; triangle_mesh].

(** A mesh whose faces mix triangles, a line and a quad. *)
Definition mixed_faces_mesh : aiMesh :=
  mkAiMesh [vertex_at 0 0 0; vertex_at 1 0 0; vertex_at 0 1 0; vertex_at 1 1 0] false false
    [[0; 1; 2]; [0; 1]; [0; 1; 3; 2]; [1; 3; 2]]%N 0.

Definition mixed_faces_scene : aiScene := mkAiScene [plain_material] [mixed_faces_mesh].

(** The model of a single vertex [(1,2,3)]. *)
Definition one_vertex_scene : aiScene :=
  mkAiScene [plain_material] [mkAiMesh [vertex_at 1 2 3] false false [] 0].

(** A mesh with no vertex and [k] copies of the triangle [0,0,0]. *)
Definition faces_scene (k : N) : aiScene :=
  mkAiScene [plain_material] [mkAiMesh [] false false (repeat [0; 0; 0]%N (N.to_nat k)) 0].

(** Spec side of the texture registry: the non-empty paths of the scan,
    each kept at its first occurrence ([seen] is every path met before,
    empty or not). *)
Fixpoint keep_first (seen : list string) (paths : list string) : list string :=
  match paths with
  | [] => []
  | p :: ps =>
      (if String.eqb p EmptyString || existsb (String.eqb p) seen then [] else [p]) ++
      keep_first (seen ++ [p]) ps
  end.

Definition first_seen_paths (ams : list aiMaterial) : list string :=
  keep_first [] (map ai_diffuseTex ams).

(** Concrete materials with and without a diffuse texture. *)
Definition textured_material (path : string) : aiMaterial :=
  mkAiMaterial None (Some (mkColor 1 1 1)) None None (Some 20) path.

Definition shiny_material (ns : Q) : aiMaterial :=
  mkAiMaterial None None None None (Some ns) "".

(** A group whose imported materials are given, nothing else. *)
Definition with_aiMaterials (ams : list aiMaterial) : ModelGroup :=
  set_aiMaterials newModelGroup ams.

(** A group with one untextured material and one instance. *)
Definition untextured_group : ModelGroup :=
  {| instances := [mkDrawCommand 0 0]; instanceDatas := [mkInstanceData 0 []];
     layout := layout newModelGroup;
     indexCount := 0; vertexCount := 0; vertexBuffer := []; indexBuffer := [];
     aiMaterials := [shiny_material 0]; texSize := 1024;
     models := [mkModel [part_example 0 0 0] dim_default];
     materials := []; vertices := None; indices := None;
     instanceBuff := None; materialsBuff := None; texArray := None |}.

(** ** [addInstance] (lines 82-103) *)

Definition set_instances (s : ModelGroup) (is : list DrawCommand) (ds : list InstanceData)
  : ModelGroup :=
  {| instances := is; instanceDatas := ds; layout := layout s;
     indexCount := indexCount s; vertexCount := vertexCount s;
     vertexBuffer := vertexBuffer s; indexBuffer := indexBuffer s;
     aiMaterials := aiMaterials s; texSize := texSize s; models := models s;
     materials := materials s; vertices := vertices s; indices := indices s;
     instanceBuff := instanceBuff s; materialsBuff := materialsBuff s;
     texArray := texArray s |}.

(** One iteration of the loop of [addInstance(modelIdx, partIdx, datas)]:
    [instances.push_back({modelIdx,partIdx}); instanceDatas.push_back(datas[i]);]. *)
Definition push_instance (modelIdx partIdx : N) (s : ModelGroup) (dt : InstanceData)
  : ModelGroup :=
  set_instances s (instances s ++ [mkDrawCommand modelIdx partIdx]) (instanceDatas s ++ [dt]).

(** [addInstance(modelIdx, partIdx, std::vector<InstanceData> datas)]
    (lines 82-89): the returned index is [instances.size()] before the
    call, cut to [uint32_t]; the [int] counter [i] overflows (UB) when
    [datas] holds [2^31] entries or more. *)
Definition addInstance_datas (s : ModelGroup) (modelIdx partIdx : N)
    (datas : list InstanceData) : Exec (N * ModelGroup) :=
  let idx := size_to_u32 (List.length (instances s)) in
  if (2 ^ 31 <=? N.of_nat (List.length datas))%N then UB "int loop counter overflow"
  else Ok (idx, fold_left (push_instance modelIdx partIdx) datas s).

(** [addInstance(modelIdx, partIdx, InstanceData data)] (lines 90-95). *)
Definition addInstance_data (s : ModelGroup) (modelIdx partIdx : N) (data : InstanceData)
  : N * ModelGroup :=
  (size_to_u32 (List.length (instances s)), push_instance modelIdx partIdx s data).

(** [addInstance(modelIdx, partIdx, const glm::mat4& modelMat)]
    (lines 96-104): the instance takes the [materialIdx] of
    [models[modelIdx].parts[partIdx]], read without bounds check. *)
Definition addInstance_mat (s : ModelGroup) (modelIdx partIdx : N) (modelMat : list Q)
  : Exec (N * ModelGroup) :=
  let idx := size_to_u32 (List.length (instances s)) in
  let s1 := set_instances s (instances s ++ [mkDrawCommand modelIdx partIdx]) (instanceDatas s) in
  let* p := part_at (models s1) modelIdx partIdx in
  Ok (idx, set_instances s1 (instances s1)
             (instanceDatas s1 ++ [mkInstanceData (materialIdx p) modelMat])).

(** ** [updateInstancesBuffer] (lines 356-358)

    [memcpy] of [instanceDatas.size()] entries into the mapped
    [instanceBuff], whose size was fixed by the last [buildInstanceBuffer]
    (the length of the data it holds); the entries past the copied ones
    keep their old values. *)
Definition updateInstancesBuffer (s : ModelGroup) : Exec ModelGroup :=
  match instanceBuff s with
  | None => UB "memcpy to an unmapped instanceBuff"
  | Some old =>
      if (N.of_nat (List.length old) <? N.of_nat (List.length (instanceDatas s)))%N
      then UB "memcpy past the end of instanceBuff"
      else Ok (set_device s (vertices s) (indices s)
                 (Some (instanceDatas s ++ skipn (List.length (instanceDatas s)) old))
                 (materialsBuff s) (texArray s))
  end.

(** ** [VertexLayout::stride()] (VulkanModel.hpp, lines 74-96) *)

(** Bytes added by one component: [sizeof(float)] is 4. *)
Definition componentBytes (c : Component) : N :=
  match c with
  | VERTEX_COMPONENT_UV => 2 * 4
  | VERTEX_COMPONENT_DUMMY_FLOAT => 4
  | VERTEX_COMPONENT_DUMMY_VEC4 => 4 * 4
  | _ => 3 * 4
  end.

(** [res] is a [uint32_t]. *)
Definition stride (lay : list Component) : N :=
  fold_left (fun res c => u32_add res (componentBytes c)) lay 0%N.

(** ** [Model::compareNoCase] (VulkanModel.hpp, lines 172-174) *)

(** The C string behind [s.c_str()]: up to the first NUL. *)
Fixpoint c_str (s : string) : list Ascii.ascii :=
  match s with
  | EmptyString => []
  | String c s' => if Ascii.eqb c Ascii.zero then [] else c :: c_str s'
  end.

(** [tolower] in the "C" locale. *)
Definition tolower (c : Ascii.ascii) : nat :=
  let n := Ascii.nat_of_ascii c in
  if (65 <=? n)%nat && (n <=? 90)%nat then (n + 32)%nat else n.

(** [strcasecmp]: the difference of the first pair of lowered characters
    that differ, the terminating NUL counting as 0. *)
Fixpoint strcasecmp (a c : list Ascii.ascii) : Z :=
  match a, c with
  | [], [] => 0%Z
  | [], c2 :: _ => (- Z.of_nat (tolower c2))%Z
  | c1 :: _, [] => Z.of_nat (tolower c1)
  | c1 :: a', c2 :: c' =>
      if Nat.eqb (tolower c1) (tolower c2) then strcasecmp a' c'
      else (Z.of_nat (tolower c1) - Z.of_nat (tolower c2))%Z
  end.

Definition compareNoCase (s1 s2 : string) : bool :=
  (strcasecmp (c_str s1) (c_str s2) <=? 0)%Z.

(** A textured copy of [untextured_group]. *)
Definition textured_group : ModelGroup := set_aiMaterials untextured_group [textured_material "a.png"].

(** The state of a run that did not hit UB, [dflt] otherwise. *)
Definition ok_or {A} (r : Exec A) (dflt : A) : A :=
  match r with Ok a => a | UB _ => dflt end.

(** Part [j] of model [k] takes its material from entry [materialIdx] of
    [aiMaterials], which is the material its mesh names in scene [k]. *)
Definition material_links (s : ModelGroup) (scs : list (string * aiScene)) : Prop :=
  forall k f sc md j mesh part,
    nth_error scs k = Some (f, sc) -> nth_error (models s) k = Some md ->
    nth_error (mMeshes sc) j = Some mesh -> nth_error (parts md) j = Some part ->
    exists am, nth_error (mMaterials sc) (N.to_nat (mMaterialIndex mesh)) = Some am /\
               nth_error (aiMaterials s) (N.to_nat (materialIdx part)) = Some am.

(** A scene of two materials whose only mesh uses the second one. *)
Definition second_material_scene : aiScene :=
  mkAiScene [plain_material; textured_material "b.png"]
    [mkAiMesh [vertex_at 0 0 0; vertex_at 1 0 0; vertex_at 0 1 0] false false [[0; 1; 2]%N] 1].

(** * Proofs *)

(** ** Monad and integer facts *)

Lemma bind_assoc {A B C} (m : Exec A) (f : A -> Exec B) (h : B -> Exec C) :
  bind (bind m f) h = bind m (fun a => bind (f a) h).
Proof. destruct m; reflexivity. Qed.

Lemma bind_ext {A B} (m : Exec A) (f f' : A -> Exec B) :
  (forall a, f a = f' a) -> bind m f = bind m f'.
Proof. intros H; destruct m; simpl; auto. Qed.

Lemma u32_add_small (a b : N) : (a + b < u32_mod)%N -> u32_add a b = (a + b)%N.
Proof. intros H; unfold u32_add; apply N.mod_small; exact H. Qed.

Lemma key_eqb_true (a c : DrawCommand) : key_eqb a c = true <-> a = c.
Proof.
  destruct a as [ma pa], c as [mc pc]; unfold key_eqb; simpl.
  rewrite andb_true_iff, !N.eqb_eq; split.
  - intros [-> ->]; reflexivity.
  - intros H; inversion H; auto.
Qed.

Lemma key_eqb_refl (a : DrawCommand) : key_eqb a a = true.
Proof. apply key_eqb_true; reflexivity. Qed.

(** ** Runs *)

Lemma group_cons_head (c : DrawCommand) (l : list DrawCommand) :
  exists n g, group (c :: l) = (c, S n) :: g.
Proof.
  simpl. destruct (group l) as [|[c' n] g].
  - exists 0%nat, []; reflexivity.
  - destruct (key_eqb c c').
    + exists n, g; reflexivity.
    + exists 0%nat, ((c', n) :: g); reflexivity.
Qed.

Lemma group_repeat_app (k : DrawCommand) (n : nat) (l : list DrawCommand) :
  group (repeat k (S n) ++ l) =
  match group l with
  | (c', m) :: g => if key_eqb k c' then (k, S n + m)%nat :: g else (k, S n) :: group l
  | [] => [(k, S n)]
  end.
Proof.
  induction n as [|n IH].
  - simpl. destruct (group l) as [|[c' m] g]; [reflexivity|].
    destruct (key_eqb k c'); reflexivity.
  - change (repeat k (S (S n)) ++ l) with (k :: (repeat k (S n) ++ l)).
    cbn [group]. rewrite IH.
    destruct (group l) as [|[c' m] g] eqn:E.
    + rewrite key_eqb_refl; reflexivity.
    + destruct (key_eqb k c') eqn:Ek; rewrite key_eqb_refl; reflexivity.
Qed.

Lemma group_repeat_nil (k : DrawCommand) (n : nat) :
  group (repeat k (S n) ++ []) = [(k, S n)].
Proof. rewrite group_repeat_app; reflexivity. Qed.

Lemma group_repeat_other (k c : DrawCommand) (n : nat) (l : list DrawCommand) :
  key_eqb k c = false ->
  group (repeat k (S n) ++ c :: l) = (k, S n) :: group (c :: l).
Proof.
  intros Hk. rewrite group_repeat_app.
  destruct (group_cons_head c l) as [m [g E]]. rewrite E, Hk. reflexivity.
Qed.

Lemma repeat_snoc_app {A} (k : A) (n : nat) (l : list A) :
  repeat k n ++ k :: l = repeat k (S n) ++ l.
Proof.
  induction n as [|n IH]; simpl; [reflexivity|]. rewrite IH. reflexivity.
Qed.

(** ** The loop of [buildCommandBuffer] *)

(** Invariant of the loop: the current run has key [k], length [S n] and
    started at [off], with [i = off + S n]. *)
Lemma bcb_loop_runs (ms : list Model) (l : list DrawCommand) :
  forall (i n off : nat) (k : DrawCommand) (acc : list DrawIndexed),
  i = (off + S n)%nat ->
  (N.of_nat (i + List.length l) < 2 ^ 31)%N ->
  bind (bcb_loop ms l i (mkBcb (modelIndex k) (partIndex k) (N.of_nat (S n)) (N.of_nat off) acc))
       (bcb_finish ms)
  = bind (run_draws ms (place off (group (repeat k (S n) ++ l))))
         (fun ds => Ok (acc ++ ds)).
Proof.
  induction l as [|c l IH]; intros i n off k acc Hi Hb.
  - rewrite group_repeat_nil. simpl.
    unfold bcb_finish; simpl.
    destruct (drawIndexed ms (modelIndex k) (partIndex k) (N.pos (Pos.of_succ_nat n)) (N.of_nat off));
      simpl; reflexivity.
  - simpl List.length in Hb.
    destruct (key_eqb k c) eqn:Ek.
    + apply key_eqb_true in Ek; subst c.
      cbn [bcb_loop b_modIdx b_partIdx b_instCount b_instOffset b_cmds].
      rewrite !N.eqb_refl. cbn [negb orb bind b_modIdx b_partIdx b_instCount b_instOffset b_cmds].
      rewrite u32_add_small by (unfold u32_mod; lia).
      replace (N.of_nat (S n) + 1)%N with (N.of_nat (S (S n))) by lia.
      rewrite repeat_snoc_app.
      apply (IH (S i) (S n) off k acc); lia.
    + rewrite group_repeat_other by exact Ek.
      assert (Hne : negb (N.eqb (modelIndex k) (modelIndex c)) ||
                    negb (N.eqb (partIndex k) (partIndex c)) = true).
      { unfold key_eqb in Ek. apply andb_false_iff in Ek.
        destruct Ek as [E|E]; rewrite E; simpl; [reflexivity|apply orb_true_r]. }
      cbn [bcb_loop b_modIdx b_partIdx b_instCount b_instOffset b_cmds].
      rewrite Hne. cbn [place run_draws run_draw].
      rewrite !bind_assoc.
      apply bind_ext; intros dc. simpl bind.
      rewrite u32_add_small by (unfold u32_mod; lia).
      replace (0 + 1)%N with (N.of_nat 1) by reflexivity.
      rewrite (IH (S i) 0%nat i c (acc ++ [dc])) by lia.
      replace (off + S n)%nat with i by lia.
      change (repeat c 1 ++ l) with (c :: l).
      rewrite bind_assoc. apply bind_ext; intros ds. simpl.
      rewrite <- app_assoc. reflexivity.
Qed.

Lemma group_flatten (l : list DrawCommand) :
  flat_map (fun p => repeat (fst p) (snd p)) (group l) = l.
Proof.
  induction l as [|c l IH]; [reflexivity|].
  simpl. destruct (group l) as [|[c' n] g] eqn:E.
  - simpl in IH. simpl. rewrite <- IH. reflexivity.
  - destruct (key_eqb c c') eqn:Ek.
    + apply key_eqb_true in Ek; subst c'. simpl in *. rewrite IH. reflexivity.
    + simpl in *. rewrite IH. reflexivity.
Qed.

Lemma place_flatten (off : nat) (g : list (DrawCommand * nat)) :
  runs_flatten (place off g) = flat_map (fun p => repeat (fst p) (snd p)) g.
Proof.
  revert off; induction g as [|[c n] g IH]; intros off; [reflexivity|].
  simpl. rewrite IH. reflexivity.
Qed.

Lemma group_pos (l : list DrawCommand) : Forall (fun p => (0 < snd p)%nat) (group l).
Proof.
  induction l as [|c l IH]; simpl; [constructor|].
  destruct (group l) as [|[c' n] g]; [repeat constructor|].
  inversion IH; subst.
  destruct (key_eqb c c'); repeat constructor; simpl in *; auto; lia.
Qed.

Lemma place_pos (off : nat) (g : list (DrawCommand * nat)) :
  Forall (fun p => (0 < snd p)%nat) g ->
  Forall (fun rn => let '(_, n, _) := rn in (0 < n)%nat) (place off g).
Proof.
  revert off; induction g as [|[c n] g IH]; intros off H; simpl; [constructor|].
  inversion H; subst. constructor; auto.
Qed.

Lemma group_neighbours (l : list DrawCommand) :
  forall off, neighbours_differ (place off (group l)).
Proof.
  induction l as [|c l IH]; intros off; [exact I|].
  simpl. destruct (group l) as [|[c' n] g] eqn:E; [exact I|].
  destruct (key_eqb c c') eqn:Ek.
  - apply key_eqb_true in Ek; subst c'.
    specialize (IH (S off)). simpl in IH |- *.
    replace (off + S n)%nat with (S off + n)%nat by lia. exact IH.
  - simpl. split.
    + intros Heq; subst c'. rewrite key_eqb_refl in Ek. discriminate.
    + exact (IH (off + 1)%nat).
Qed.

(** ** C1 *)

(** C1: for every non-empty instance list (below the [2^31] entries at
    which the [int] loop counter would overflow), [buildCommandBuffer]
    records exactly the draws of the maximal contiguous runs of equal
    [(model, part)] keys, in order: one [vkCmdDrawIndexed] per run, with
    that run's part geometry, [instanceCount] the run length and
    [firstInstance] the run's starting offset.  The runs partition the
    instance list, are non-empty, and neighbouring runs have different
    keys, so non-adjacent runs with one key are never merged. *)
Theorem buildCommandBuffer_one_draw_per_run (s : ModelGroup)
    (Hne : instances s <> [])
    (Hlen : (N.of_nat (List.length (instances s)) < 2 ^ 31)%N) :
  buildCommandBuffer s = run_draws (models s) (runs (instances s)) /\
  runs_flatten (runs (instances s)) = instances s /\
  Forall (fun rn => let '(_, n, _) := rn in (0 < n)%nat) (runs (instances s)) /\
  neighbours_differ (runs (instances s)).
Proof.
  split; [|split; [|split]].
  - unfold buildCommandBuffer.
    destruct (instances s) as [|c0 l] eqn:E; [contradiction|].
    cbn [at_ nth_error N.to_nat bind].
    assert (Hb : (2 ^ 31 <=? N.of_nat (List.length (c0 :: l)))%N = false)
      by (apply N.leb_gt; exact Hlen).
    rewrite Hb.
    cbn [bcb_loop b_modIdx b_partIdx b_instCount b_instOffset b_cmds].
    rewrite !N.eqb_refl. cbn [negb orb bind b_modIdx b_partIdx b_instCount b_instOffset b_cmds].
    pose proof (bcb_loop_runs (models s) l 1 0 0 c0 []) as HL.
    etransitivity; [apply HL; simpl in Hlen |- *; lia|]. clear HL.
    unfold runs. change (repeat c0 1 ++ l) with (c0 :: l).
    destruct (run_draws (models s) (place 0 (group (c0 :: l)))); reflexivity.
  - unfold runs. rewrite place_flatten. apply group_flatten.
  - unfold runs. apply place_pos, group_pos.
  - apply group_neighbours.
Qed.

(** The instances [(M0,P0),(M0,P0),(M1,P1),(M0,P0)]: three draws, with
    instance counts [2,1,1] and first instances [0,2,3]. *)
Lemma buildCommandBuffer_one_draw_per_run_witness :
  instances batching_example <> [] /\
  (N.of_nat (List.length (instances batching_example)) < 2 ^ 31)%N /\
  buildCommandBuffer batching_example = run_draws (models batching_example) (runs (instances batching_example)) /\
  exists ds, buildCommandBuffer batching_example = Ok ds /\
    map dInstanceCount ds = [2; 1; 1]%N /\ map dFirstInstance ds = [0; 2; 3]%N.
Proof.
  assert (H1 : instances batching_example <> []) by discriminate.
  assert (H2 : (N.of_nat (List.length (instances batching_example)) < 2 ^ 31)%N)
    by (vm_compute; reflexivity).
  split; [exact H1|]. split; [exact H2|]. split.
  - exact (proj1 (buildCommandBuffer_one_draw_per_run batching_example H1 H2)).
  - eexists. split; [vm_compute; reflexivity|]. split; reflexivity.
Defined.

(** ** C2 *)

(** C2: on an empty instance list, [buildCommandBuffer] issues no draw,
    but reads [instances[0]] of the empty vector before the guard
    [if (instCount==0) return;] that was meant for this case. *)
Theorem buildCommandBuffer_empty_reads_instances0 (s : ModelGroup)
    (Hempty : instances s = []) :
  buildCommandBuffer s = UB "instances[0] on an empty vector".
Proof. unfold buildCommandBuffer, at_. rewrite Hempty. reflexivity. Qed.

Lemma buildCommandBuffer_empty_reads_instances0_witness :
  instances newModelGroup = [] /\
  buildCommandBuffer newModelGroup = UB "instances[0] on an empty vector".
Proof.
  split; [reflexivity|].
  apply buildCommandBuffer_empty_reads_instances0; reflexivity.
Defined.

(** ** C4 *)

(** C4, as stated: the outcome returned on an importer failure carries
    the diagnostic.  It does not: two different diagnostics give the
    same returned [int], [-1]. *)
Lemma addModel_failure_drops_diagnostic :
  exists out1 out2,
    addModel newModelGroup "scene.obj" (ImportError "Unable to open file") =
      Ok ((-1)%Z, newModelGroup, out1) /\
    addModel newModelGroup "scene.obj" (ImportError "Invalid header") =
      Ok ((-1)%Z, newModelGroup, out2) /\
    "Unable to open file"%string <> "Invalid header"%string.
Proof.
  do 2 eexists. split; [reflexivity|]. split; [reflexivity|]. discriminate.
Qed.

(** C4, amended: on an importer failure [addModel] returns [-1], leaves
    the whole object unchanged (buffers, materials, models, counters),
    and only prints the importer's diagnostic. *)
Theorem addModel_import_failure (s : ModelGroup) (filename err : string) :
  addModel s filename (ImportError err) =
  Ok ((-1)%Z, s, [("Error parsing '" ++ filename ++ "': '" ++ err ++ "'" ++ newline)%string]).
Proof. reflexivity. Qed.

(** ** The face and vertex loops of [addModel] *)

Lemma addFace_eq (ib : list N) (pic ic : N) (f : list N) :
  addFace (ib, pic, ic) f =
  if is_triangle f then (ib ++ f, u32_add pic 3, u32_add ic 3) else (ib, pic, ic).
Proof. destruct f as [|a [|b [|c [|e f]]]]; reflexivity. Qed.

Lemma u32_mod_neq_0 : u32_mod <> 0%N.
Proof. unfold u32_mod; lia. Qed.

Lemma addFaces_eq (faces : list (list N)) :
  forall ib pic ic, (pic < u32_mod)%N -> (ic < u32_mod)%N ->
  fold_left addFace faces (ib, pic, ic) =
  (ib ++ List.concat (triangles faces),
   N.modulo (pic + 3 * N.of_nat (List.length (triangles faces))) u32_mod,
   N.modulo (ic + 3 * N.of_nat (List.length (triangles faces))) u32_mod).
Proof.
  induction faces as [|f faces IH]; intros ib pic ic Hp Hi.
  - simpl. rewrite app_nil_r, !N.add_0_r, !N.mod_small by assumption. reflexivity.
  - cbn [fold_left]. rewrite addFace_eq. unfold triangles; cbn [filter].
    destruct (is_triangle f) eqn:Ef.
    + rewrite IH by (apply N.mod_lt, u32_mod_neq_0).
      fold (triangles faces). cbn [List.concat List.length]. rewrite app_assoc.
      unfold u32_add. rewrite !N.Div0.add_mod_idemp_l.
      rewrite Nat2N.inj_succ.
      replace (pic + 3 + 3 * N.of_nat (List.length (triangles faces)))%N
        with (pic + 3 * N.succ (N.of_nat (List.length (triangles faces))))%N by lia.
      replace (ic + 3 + 3 * N.of_nat (List.length (triangles faces)))%N
        with (ic + 3 * N.succ (N.of_nat (List.length (triangles faces))))%N by lia.
      reflexivity.
    + apply IH; assumption.
Qed.

Lemma addVertices_eq (lay : list Component) (c : color3) (ht hb : bool) (vs : list aiVertex) :
  forall vb dm,
  fold_left (addVertex lay c ht hb) vs (vb, dm) =
  (vb ++ flat_map (vertexData lay c ht hb) vs, fold_left growDim (map vPos vs) dm).
Proof.
  induction vs as [|v vs IH]; intros vb dm; simpl.
  - rewrite app_nil_r; reflexivity.
  - unfold addVertex at 2; simpl. rewrite IH, app_assoc. reflexivity.
Qed.

(** What one iteration of the mesh loop does to the object. *)
Lemma loadMesh_ok (sc : aiScene) (off : N) (s : ModelGroup) (dm : Dimension) (mesh : aiMesh)
    (s1 : ModelGroup) (dm1 : Dimension) (p : ModelPart) :
  loadMesh sc off s dm mesh = Ok (s1, dm1, p) ->
  exists mat,
    nth_error (mMaterials sc) (N.to_nat (mMaterialIndex mesh)) = Some mat /\
    vertexBuffer s1 = vertexBuffer s ++
      flat_map (vertexData (layout s) (aiGet (ai_diffuse mat) color_black)
                  (hasTextureCoords mesh) (hasTangentsAndBitangents mesh)) (mVertices mesh) /\
    dmin dm1 = dmin (fold_left growDim (map vPos (mVertices mesh)) dm) /\
    dmax dm1 = dmax (fold_left growDim (map vPos (mVertices mesh)) dm) /\
    fold_left addFace (mFaces mesh) (indexBuffer s, 0%N, indexCount s) =
      (indexBuffer s1, part_indexCount p, indexCount s1) /\
    vertexCount s1 = u32_add (vertexCount s) (N.of_nat (List.length (mVertices mesh))) /\
    part_vertexCount p = N.of_nat (List.length (mVertices mesh)) /\
    vertexBase p = vertexCount s /\ indexBase p = indexCount s /\
    layout s1 = layout s /\ models s1 = models s.
Proof.
  unfold loadMesh, at_.
  destruct (nth_error (mMaterials sc) (N.to_nat (mMaterialIndex mesh))) as [mat|] eqn:Em;
    [|discriminate].
  cbn [bind]. rewrite addVertices_eq.
  destruct (fold_left addFace (mFaces mesh) (indexBuffer s, 0%N, indexCount s))
    as [[ib pic] ic] eqn:Ef.
  intros H; inversion H; subst; clear H.
  exists mat. repeat split; reflexivity.
Qed.

(** ** C5 *)

(** C5, as stated: the index values appended are global, i.e. positions
    in the shared vertex buffer.  They are not: for two meshes with the
    triangle [0,1,2] each, the second part has [vertexBase = 3] but its
    indices are appended as [0,1,2], which as global positions would be
    vertices of the first mesh. *)
Lemma addModel_indices_mesh_local :
  exists s' out,
    addModel newModelGroup "two.obj" (Scene two_triangles_scene) = Ok (0%Z, s', out) /\
    indexBuffer s' = [0; 1; 2; 0; 1; 2]%N /\
    map vertexBase (flat_map parts (models s')) = [0; 3]%N /\
    ~ (forall i, In i (skipn 3 (indexBuffer s')) -> (3 <= i)%N).
Proof.
  do 2 eexists. split; [vm_compute; reflexivity|].
  split; [reflexivity|]. split; [reflexivity|].
  intros H. specialize (H 0%N). simpl in H. lia.
Qed.

(** C5, amended: in the mesh loop of [addModel], the faces with exactly 3
    indices are appended to the shared index buffer in order and
    unchanged (mesh-local, relative to the part's [vertexBase], which the
    draw passes as [vertexOffset]); each of them adds 3 to the part's
    [indexCount] and to the global [indexCount] (32-bit counters); every
    other face is skipped and changes neither. *)
Theorem loadMesh_triangle_faces (sc : aiScene) (off : N) (s : ModelGroup) (dm : Dimension)
    (mesh : aiMesh) (s1 : ModelGroup) (dm1 : Dimension) (p : ModelPart)
    (Hic : (indexCount s < 2 ^ 32)%N)
    (H : loadMesh sc off s dm mesh = Ok (s1, dm1, p)) :
  indexBuffer s1 = indexBuffer s ++ List.concat (triangles (mFaces mesh)) /\
  part_indexCount p = N.modulo (3 * N.of_nat (List.length (triangles (mFaces mesh)))) (2 ^ 32) /\
  indexCount s1 =
    N.modulo (indexCount s + 3 * N.of_nat (List.length (triangles (mFaces mesh)))) (2 ^ 32) /\
  indexBase p = indexCount s /\ vertexBase p = vertexCount s.
Proof.
  apply loadMesh_ok in H.
  destruct H as [mat [_ [_ [_ [_ [Hf [_ [_ [Hvb [Hib _]]]]]]]]]].
  rewrite addFaces_eq in Hf by (unfold u32_mod in *; lia).
  inversion Hf; subst. repeat split; auto.
Qed.

Lemma loadMesh_triangle_faces_witness :
  exists s1 dm1 p,
    (indexCount newModelGroup < 2 ^ 32)%N /\
    loadMesh mixed_faces_scene 0 newModelGroup dim_default mixed_faces_mesh = Ok (s1, dm1, p) /\
    indexBuffer s1 = [0; 1; 2; 1; 3; 2]%N /\ part_indexCount p = 6%N /\
    indexBuffer s1 = indexBuffer newModelGroup ++ List.concat (triangles (mFaces mixed_faces_mesh)).
Proof.
  do 3 eexists.
  assert (Hic : (indexCount newModelGroup < 2 ^ 32)%N) by (vm_compute; reflexivity).
  assert (H : loadMesh mixed_faces_scene 0 newModelGroup dim_default mixed_faces_mesh =
              Ok (_, _, _)) by (vm_compute; reflexivity).
  split; [exact Hic|]. split; [exact H|].
  split; [reflexivity|]. split; [reflexivity|].
  exact (proj1 (loadMesh_triangle_faces _ _ _ _ _ _ _ _ Hic H)).
Defined.

(** ** The bounding box *)

Lemma fmin_le_l (a c : Q) : fmin a c <= a.
Proof.
  unfold fmin. destruct (Qle_bool a c) eqn:E; [apply Qle_refl|].
  apply Qnot_lt_le. intros Hlt. apply Qlt_le_weak, Qle_bool_iff in Hlt. congruence.
Qed.

Lemma fmin_le_r (a c : Q) : fmin a c <= c.
Proof.
  unfold fmin. destruct (Qle_bool a c) eqn:E; [apply Qle_bool_iff; exact E|apply Qle_refl].
Qed.

Lemma fmax_ge_l (a c : Q) : a <= fmax a c.
Proof.
  unfold fmax. destruct (Qle_bool a c) eqn:E; [apply Qle_bool_iff; exact E|apply Qle_refl].
Qed.

Lemma fmax_ge_r (a c : Q) : c <= fmax a c.
Proof.
  unfold fmax. destruct (Qle_bool a c) eqn:E; [apply Qle_refl|].
  apply Qnot_lt_le. intros Hlt. apply Qlt_le_weak, Qle_bool_iff in Hlt. congruence.
Qed.

Section Coordinate.
(** One coordinate of [vec3], folded by [growDim] with [fmin]/[fmax]. *)
Variable proj : vec3 -> Q.
Hypothesis proj_min : forall dm p, proj (dmin (growDim dm p)) = fmin (proj p) (proj (dmin dm)).
Hypothesis proj_max : forall dm p, proj (dmax (growDim dm p)) = fmax (proj p) (proj (dmax dm)).

Lemma fold_growDim_mono (ps : list vec3) :
  forall dm, proj (dmin (fold_left growDim ps dm)) <= proj (dmin dm) /\
               proj (dmax dm) <= proj (dmax (fold_left growDim ps dm)).
Proof.
  induction ps as [|p ps IH]; intros dm; simpl; [split; apply Qle_refl|].
  destruct (IH (growDim dm p)) as [H1 H2]. split.
  - eapply Qle_trans; [exact H1|]. rewrite proj_min. apply fmin_le_r.
  - eapply Qle_trans; [|exact H2]. rewrite proj_max. apply fmax_ge_r.
Qed.

Lemma fold_growDim_contains (ps : list vec3) :
  forall dm p, In p ps ->
  proj (dmin (fold_left growDim ps dm)) <= proj p /\
  proj p <= proj (dmax (fold_left growDim ps dm)).
Proof.
  induction ps as [|q ps IH]; intros dm p Hin; [destruct Hin|].
  destruct Hin as [->|Hin]; simpl.
  - destruct (fold_growDim_mono ps (growDim dm p)) as [H1 H2]. split.
    + eapply Qle_trans; [exact H1|]. rewrite proj_min. apply fmin_le_l.
    + eapply Qle_trans; [|exact H2]. rewrite proj_max. apply fmax_ge_l.
  - apply IH; exact Hin.
Qed.
End Coordinate.

Lemma fold_growDim_ext (ps : list vec3) :
  forall dm dm', dmin dm = dmin dm' -> dmax dm = dmax dm' ->
  dmin (fold_left growDim ps dm) = dmin (fold_left growDim ps dm') /\
  dmax (fold_left growDim ps dm) = dmax (fold_left growDim ps dm').
Proof.
  induction ps as [|p ps IH]; intros dm dm' H1 H2; simpl; [auto|].
  apply IH; unfold growDim; simpl; rewrite H1 || rewrite H2; rewrite ?H1, ?H2; reflexivity.
Qed.

(** What the mesh loop of [addModel] does to the vertex buffer and the
    running bounding box. *)
Lemma loadMeshes_vertices (sc : aiScene) (off : N) (ms : list aiMesh) :
  forall s dm s2 dm2 ps,
  loadMeshes sc off s dm ms = Ok (s2, dm2, ps) ->
  vertexBuffer s2 = vertexBuffer s ++
    flat_map (fun mesh => flat_map (vertexData (layout s) (meshColor sc mesh)
                 (hasTextureCoords mesh) (hasTangentsAndBitangents mesh)) (mVertices mesh)) ms /\
  dmin dm2 = dmin (fold_left growDim (map vPos (flat_map mVertices ms)) dm) /\
  dmax dm2 = dmax (fold_left growDim (map vPos (flat_map mVertices ms)) dm) /\
  layout s2 = layout s /\ models s2 = models s.
Proof.
  induction ms as [|mesh ms IH]; intros s dm s2 dm2 ps H.
  - simpl in H. inversion H; subst. rewrite app_nil_r. auto.
  - simpl in H.
    destruct (loadMesh sc off s dm mesh) as [[[s1 dm1] p]|w] eqn:E1; [|discriminate].
    simpl in H.
    destruct (loadMeshes sc off s1 dm1 ms) as [[[s3 dm3] ps3]|w] eqn:E2; [|discriminate].
    simpl in H. inversion H; subst; clear H.
    apply loadMesh_ok in E1.
    destruct E1 as [mat [Hm [Hvb [Hmin [Hmax [_ [_ [_ [_ [_ [Hlay Hmod]]]]]]]]]]].
    destruct (IH _ _ _ _ _ E2) as [Hvb2 [Hmin2 [Hmax2 [Hlay2 Hmod2]]]].
    rewrite Hlay in Hvb2.
    destruct (fold_growDim_ext (map vPos (flat_map mVertices ms)) dm1
                (fold_left growDim (map vPos (mVertices mesh)) dm) Hmin Hmax) as [E3 E4].
    simpl flat_map. rewrite map_app, fold_left_app.
    repeat split.
    + rewrite Hvb2, Hvb, <- app_assoc. unfold meshColor. rewrite Hm. reflexivity.
    + rewrite Hmin2, E3. reflexivity.
    + rewrite Hmax2, E4. reflexivity.
    + rewrite Hlay2, Hlay. reflexivity.
    + rewrite Hmod2, Hmod. reflexivity.
Qed.

(** ** C10 *)

(** C10: after a successful [addModel], the new model's bounding box is
    the [fmin]/[fmax] fold, from the [FLT_MAX] defaults, of the raw
    importer positions [vPos] (Y not negated), so it bounds every raw
    position; whereas the position floats written to the shared vertex
    buffer are [x, -y, z].  For a vertex with nonzero Y, the value written
    is [-y], which differs from the [y] the box was folded from. *)
Theorem addModel_bbox_from_raw_positions (s s' : ModelGroup) (filename : string)
    (sc : aiScene) (idx : Z) (out : list string)
    (H : addModel s filename (Scene sc) = Ok (idx, s', out)) :
  exists md,
    models s' = models s ++ [md] /\
    dmin (dim md) = dmin (fold_left growDim (map vPos (all_vertices sc)) dim_default) /\
    dmax (dim md) = dmax (fold_left growDim (map vPos (all_vertices sc)) dim_default) /\
    vertexBuffer s' = vertexBuffer s ++
      flat_map (fun mesh => flat_map (vertexData (layout s) (meshColor sc mesh)
                   (hasTextureCoords mesh) (hasTangentsAndBitangents mesh)) (mVertices mesh))
        (mMeshes sc) /\
    (forall c ht hb v, componentData c ht hb v VERTEX_COMPONENT_POSITION =
                       [x (vPos v); - y (vPos v); z (vPos v)]) /\
    (forall v, In v (all_vertices sc) ->
       x (dmin (dim md)) <= x (vPos v) <= x (dmax (dim md)) /\
       y (dmin (dim md)) <= y (vPos v) <= y (dmax (dim md)) /\
       z (dmin (dim md)) <= z (vPos v) <= z (dmax (dim md)) /\
       (~ y (vPos v) == 0 -> ~ - y (vPos v) == y (vPos v))).
Proof.
  unfold addModel in H.
  destruct (loadMeshes sc (size_to_u32 (List.length (aiMaterials s)))
              (set_aiMaterials s (aiMaterials s ++ mMaterials sc)) dim_default (mMeshes sc))
    as [[[s2 dm] ps]|w] eqn:E; [|discriminate].
  simpl in H. inversion H; subst; clear H.
  destruct (loadMeshes_vertices _ _ _ _ _ _ _ _ E) as [Hvb [Hmin [Hmax [Hlay Hmod]]]].
  exists (mkModel ps dm). cbn [dim].
  split; [simpl; rewrite Hmod; reflexivity|].
  split; [exact Hmin|]. split; [exact Hmax|].
  split; [exact Hvb|]. split; [reflexivity|].
  intros v Hin.
  assert (Hp : In (vPos v) (map vPos (all_vertices sc))) by (apply in_map; exact Hin).
  rewrite Hmin, Hmax.
  split; [apply (fold_growDim_contains x); auto|].
  split; [apply (fold_growDim_contains y); auto|].
  split; [apply (fold_growDim_contains z); auto|].
  intros Hy Heq. apply Hy.
  apply (Qplus_inj_l _ _ (y (vPos v))) in Heq.
  rewrite Qplus_opp_r in Heq.
  setoid_replace (y (vPos v) + y (vPos v)) with (2 * y (vPos v)) in Heq by ring.
  symmetry in Heq. apply Qmult_integral in Heq.
  destruct Heq as [Heq|Heq]; [discriminate|exact Heq].
Qed.

(** The single vertex [(1,2,3)]: the box is [(1,2,3)]..[(1,2,3)] while
    the position written is [(1,-2,3)]. *)
Lemma addModel_bbox_from_raw_positions_witness :
  exists s' out,
    addModel newModelGroup "one.obj" (Scene one_vertex_scene) = Ok (0%Z, s', out) /\
    map (fun md => (dmin (dim md), dmax (dim md))) (models s') =
      [(mkVec3 1 2 3, mkVec3 1 2 3)] /\
    firstn 3 (vertexBuffer s') = [1; -(2); 3] /\
    exists md, models s' = models newModelGroup ++ [md] /\
      dmin (dim md) = dmin (fold_left growDim (map vPos (all_vertices one_vertex_scene)) dim_default).
Proof.
  do 2 eexists.
  assert (H : addModel newModelGroup "one.obj" (Scene one_vertex_scene) = Ok (0%Z, _, _))
    by (vm_compute; reflexivity).
  split; [exact H|].
  split; [vm_compute; reflexivity|].
  split; [vm_compute; reflexivity|].
  destruct (addModel_bbox_from_raw_positions _ _ _ _ _ _ H) as [md [H1 [H2 _]]].
  exists md. split; [exact H1|exact H2].
Defined.

(** ** Counters and buffer lengths *)

Definition sum_list_parts (f : ModelPart -> N) (ps : list ModelPart) : N :=
  fold_right (fun p a => (f p + a)%N) 0%N ps.

Lemma sum_parts_app (f : ModelPart -> N) (ms : list Model) (ps : list ModelPart) (dm : Dimension) :
  sum_parts f (ms ++ [mkModel ps dm]) = (sum_parts f ms + sum_list_parts f ps)%N.
Proof.
  unfold sum_parts. rewrite fold_right_app. simpl.
  induction ms as [|m ms IH]; simpl; [unfold sum_list_parts; lia|].
  rewrite IH. lia.
Qed.

Lemma vertexFloats_sum (lay : list Component) :
  forall a, fold_left (fun acc c => (acc + componentFloats c)%nat) lay a =
            (a + list_sum (map componentFloats lay))%nat.
Proof.
  induction lay as [|c lay IH]; intros a; simpl; [lia|]. rewrite IH. lia.
Qed.

Lemma vertexData_length (lay : list Component) (c : color3) (ht hb : bool) (v : aiVertex) :
  List.length (vertexData lay c ht hb v) = vertexFloats lay.
Proof.
  unfold vertexData, vertexFloats. rewrite vertexFloats_sum. simpl.
  induction lay as [|k lay IH]; [reflexivity|].
  simpl. rewrite length_app, IH. destruct k; reflexivity.
Qed.

Lemma vertices_length (lay : list Component) (c : color3) (ht hb : bool) (vs : list aiVertex) :
  List.length (flat_map (vertexData lay c ht hb) vs) = (List.length vs * vertexFloats lay)%nat.
Proof.
  induction vs as [|v vs IH]; [reflexivity|].
  simpl. rewrite length_app, IH, vertexData_length. lia.
Qed.

Lemma triangles_length (faces : list (list N)) :
  List.length (List.concat (triangles faces)) = (3 * List.length (triangles faces))%nat.
Proof.
  induction faces as [|f faces IH]; [reflexivity|].
  unfold triangles in *. simpl. destruct (is_triangle f) eqn:E; [|exact IH].
  simpl. rewrite length_app, IH. unfold is_triangle in E. apply Nat.eqb_eq in E. lia.
Qed.

Lemma mod_lt_u32 (a : N) : (a mod u32_mod < u32_mod)%N.
Proof. apply N.mod_lt, u32_mod_neq_0. Qed.

(** The mesh loop keeps the counters in step with the buffers, modulo
    [2^32]. *)
Lemma loadMeshes_counts (sc : aiScene) (off : N) (ms : list aiMesh) :
  forall s dm s2 dm2 ps,
  (vertexCount s < u32_mod)%N -> (indexCount s < u32_mod)%N ->
  loadMeshes sc off s dm ms = Ok (s2, dm2, ps) ->
  N.of_nat (List.length (vertexBuffer s2)) =
    (N.of_nat (List.length (vertexBuffer s)) +
     sum_list_parts part_vertexCount ps * N.of_nat (vertexFloats (layout s)))%N /\
  vertexCount s2 = ((vertexCount s + sum_list_parts part_vertexCount ps) mod u32_mod)%N /\
  (exists k,
     N.of_nat (List.length (indexBuffer s2)) = (N.of_nat (List.length (indexBuffer s)) + k)%N /\
     indexCount s2 = ((indexCount s + k) mod u32_mod)%N /\
     (sum_list_parts part_indexCount ps <= k)%N /\
     (sum_list_parts part_indexCount ps mod u32_mod = k mod u32_mod)%N) /\
  layout s2 = layout s /\ models s2 = models s.
Proof.
  induction ms as [|mesh ms IH]; intros s dm s2 dm2 ps Hvc Hic H.
  - simpl in H. inversion H; subst; clear H. cbn [sum_list_parts fold_right].
    rewrite !N.add_0_r, N.mod_small by exact Hvc.
    repeat split; auto. exists 0%N. rewrite !N.add_0_r, N.mod_small by exact Hic.
    repeat split; lia.
  - simpl in H.
    destruct (loadMesh sc off s dm mesh) as [[[s1 dm1] p]|w] eqn:E1; [|discriminate].
    simpl in H.
    destruct (loadMeshes sc off s1 dm1 ms) as [[[s3 dm3] ps3]|w] eqn:E2; [|discriminate].
    simpl in H. inversion H; subst; clear H.
    apply loadMesh_ok in E1.
    destruct E1 as [mat [_ [Hvb [_ [_ [Hf [Hvc1 [Hpv [_ [_ [Hlay Hmod]]]]]]]]]]].
    rewrite addFaces_eq in Hf by (first [exact Hic | unfold u32_mod; lia]).
    pose proof (f_equal (fun r => fst (fst r)) Hf) as Hib1.
    pose proof (f_equal (fun r => snd (fst r)) Hf) as Hpic.
    pose proof (f_equal snd Hf) as Hic1. clear Hf.
    cbn [fst snd] in Hib1, Hpic, Hic1. rewrite N.add_0_l in Hpic.
    assert (Hvc1' : (vertexCount s1 < u32_mod)%N) by (rewrite Hvc1; apply mod_lt_u32).
    assert (Hic1' : (indexCount s1 < u32_mod)%N) by (rewrite <- Hic1; apply mod_lt_u32).
    destruct (IH _ _ _ _ _ Hvc1' Hic1' E2)
      as [Hvb2 [Hvc2 [[k [Hib2 [Hic2 [Hle Hmodk]]]] [Hlay2 Hmod2]]]].
    set (t := N.of_nat (List.length (triangles (mFaces mesh)))) in *.
    cbn [sum_list_parts fold_right]. fold (sum_list_parts part_vertexCount ps3).
    fold (sum_list_parts part_indexCount ps3).
    rewrite Hlay in Hvb2.
    split; [|split; [|split; [|split]]].
    + rewrite Hvb2, Hvb, length_app, vertices_length, Hpv. lia.
    + rewrite Hvc2, Hvc1, Hpv. unfold u32_add.
      rewrite N.Div0.add_mod_idemp_l. f_equal. lia.
    + exists (3 * t + k)%N. split; [|split; [|split]].
      * rewrite Hib2, <- Hib1, length_app, triangles_length. lia.
      * rewrite Hic2, <- Hic1, N.Div0.add_mod_idemp_l. f_equal. lia.
      * rewrite <- Hpic. pose proof (N.Div0.mod_le (3 * t) u32_mod). lia.
      * rewrite <- Hpic. rewrite N.Div0.add_mod_idemp_l.
        rewrite <- N.Div0.add_mod_idemp_r, Hmodk, N.Div0.add_mod_idemp_r. reflexivity.
    + rewrite Hlay2, Hlay. reflexivity.
    + rewrite Hmod2, Hmod. reflexivity.
Qed.

(** The counters against the buffers and the parts, modulo [2^32]. *)
Definition counts_inv (s : ModelGroup) : Prop :=
  N.of_nat (List.length (vertexBuffer s)) =
    (sum_parts part_vertexCount (models s) * N.of_nat (vertexFloats (layout s)))%N /\
  vertexCount s = (sum_parts part_vertexCount (models s) mod u32_mod)%N /\
  indexCount s = (N.of_nat (List.length (indexBuffer s)) mod u32_mod)%N /\
  (sum_parts part_indexCount (models s) <= N.of_nat (List.length (indexBuffer s)))%N /\
  (sum_parts part_indexCount (models s) mod u32_mod =
     N.of_nat (List.length (indexBuffer s)) mod u32_mod)%N.

Lemma counts_inv_new : counts_inv newModelGroup.
Proof. repeat split; reflexivity. Qed.

Lemma addModel_counts_inv (s s' : ModelGroup) (f : string) (sc : aiScene) (idx : Z)
    (out : list string) :
  counts_inv s -> addModel s f (Scene sc) = Ok (idx, s', out) ->
  counts_inv s' /\ layout s' = layout s.
Proof.
  intros [Hv [Hvc [Hic [Hle Hmod]]]] H.
  unfold addModel in H.
  destruct (loadMeshes sc (size_to_u32 (List.length (aiMaterials s)))
              (set_aiMaterials s (aiMaterials s ++ mMaterials sc)) dim_default (mMeshes sc))
    as [[[s2 dm] ps]|w] eqn:E; [|discriminate].
  simpl in H. inversion H; subst; clear H.
  apply loadMeshes_counts in E;
    [|simpl; rewrite Hvc; apply mod_lt_u32|simpl; rewrite Hic; apply mod_lt_u32].
  destruct E as [Hv2 [Hvc2 [[k [Hib2 [Hic2 [Hle2 Hmod2]]]] [Hlay2 Hmod2']]]].
  cbn [set_aiMaterials vertexBuffer indexBuffer vertexCount indexCount layout models] in *.
  unfold counts_inv; cbn [set_models vertexBuffer indexBuffer vertexCount indexCount layout models].
  rewrite Hmod2', !sum_parts_app, Hlay2.
  split; [|reflexivity].
  split; [|split; [|split; [|split]]].
  - rewrite Hv2, Hv. lia.
  - rewrite Hvc2, Hvc, N.Div0.add_mod_idemp_l. reflexivity.
  - rewrite Hic2, Hic, Hib2, N.Div0.add_mod_idemp_l. reflexivity.
  - rewrite Hib2. lia.
  - rewrite Hib2.
    rewrite <- (N.Div0.add_mod_idemp_l (N.of_nat (List.length (indexBuffer s))) k), <- Hmod,
      N.Div0.add_mod_idemp_l.
    rewrite <- (N.Div0.add_mod_idemp_r (sum_parts part_indexCount (models s)) k), <- Hmod2,
      N.Div0.add_mod_idemp_r. reflexivity.
Qed.

Lemma addModels_counts_inv (scs : list (string * aiScene)) :
  forall s s', counts_inv s -> addModels s scs = Ok s' -> counts_inv s' /\ layout s' = layout s.
Proof.
  induction scs as [|[f sc] scs IH]; intros s s' Hinv H.
  - simpl in H. inversion H; subst. auto.
  - cbn [addModels] in H.
    destruct (addModel s f (Scene sc)) as [[[idx s1] out]|w] eqn:E; [|discriminate].
    cbn [bind] in H.
    destruct (addModel_counts_inv _ _ _ _ _ _ Hinv E) as [Hinv1 Hlay1].
    destruct (IH _ _ Hinv1 H) as [Hinv2 Hlay2]. split; [exact Hinv2|congruence].
Qed.

(** ** C3 *)

(** The single [addModel] call on [faces_scene k]: the buffer gets [3k]
    indices, the counters [3k mod 2^32]. *)
Lemma addModel_faces_scene (k : N) :
  exists s' out,
    addModel newModelGroup "faces.obj" (Scene (faces_scene k)) = Ok (0%Z, s', out) /\
    N.of_nat (List.length (indexBuffer s')) = (3 * k)%N /\
    indexCount s' = ((3 * k) mod u32_mod)%N /\
    sum_parts part_indexCount (models s') = ((3 * k) mod u32_mod)%N.
Proof.
  unfold addModel, faces_scene. cbn [mMeshes loadMeshes].
  unfold loadMesh. cbn [mMaterials at_ mMaterialIndex nth_error N.to_nat bind mVertices
                        fold_left mFaces].
  rewrite addFaces_eq by (vm_compute; reflexivity).
  assert (Ht : triangles (repeat [0; 0; 0]%N (N.to_nat k)) = repeat [0; 0; 0]%N (N.to_nat k)).
  { induction (N.to_nat k) as [|n IH]; [reflexivity|]. simpl. rewrite IH. reflexivity. }
  rewrite Ht, repeat_length, N2Nat.id.
  do 2 eexists. split; [reflexivity|].
  cbn [set_models set_geometry indexBuffer indexCount models set_aiMaterials newModelGroup].
  split; [|split].
  - rewrite app_nil_l.
    assert (Hl : forall n, List.length (List.concat (repeat [0; 0; 0]%N n)) = (3 * n)%nat)
      by (induction n as [|n IH]; [reflexivity|simpl; rewrite IH; lia]).
    rewrite Hl, Nat2N.inj_mul, N2Nat.id. reflexivity.
  - rewrite N.add_0_l. reflexivity.
  - rewrite sum_parts_app. cbn [sum_list_parts fold_right part_indexCount sum_parts].
    rewrite N.add_0_l, N.add_0_r. reflexivity.
Qed.

(** C3, as stated: the part index counts, the index buffer length and the
    global [indexCount] are equal.  With [1431655766] triangles (so
    [4294967298] indices) the 32-bit counters have wrapped: [indexCount]
    and the part's [indexCount] are [2]. *)
Lemma addModel_index_counter_wraps :
  exists s' out,
    addModel newModelGroup "faces.obj" (Scene (faces_scene 1431655766)) = Ok (0%Z, s', out) /\
    N.of_nat (List.length (indexBuffer s')) = 4294967298%N /\
    indexCount s' = 2%N /\
    sum_parts part_indexCount (models s') = 2%N /\
    indexCount s' <> N.of_nat (List.length (indexBuffer s')).
Proof.
  destruct (addModel_faces_scene 1431655766) as [s' [out [H [Hl [Hc Hs]]]]].
  exists s', out. split; [exact H|].
  rewrite Hl, Hc, Hs. split; [reflexivity|]. split; [vm_compute; reflexivity|].
  split; [vm_compute; reflexivity|]. vm_compute. discriminate.
Qed.

(** C3, amended: after any sequence of successful [addModel] calls from a
    fresh [ModelGroup], as long as the total number of indices and the
    total number of vertices stay below [2^32] (the counters are
    [uint32_t]), the parts' [indexCount]s sum to the length of the shared
    index buffer, which equals the global [indexCount]; the parts'
    [vertexCount]s sum to the global [vertexCount]; and the shared vertex
    buffer holds [vertexCount] interleaved vertices of the layout. *)
Theorem addModels_counts (scs : list (string * aiScene)) (s' : ModelGroup)
    (H : addModels newModelGroup scs = Ok s')
    (Hi : (N.of_nat (List.length (indexBuffer s')) < 2 ^ 32)%N)
    (Hv : (sum_parts part_vertexCount (models s') < 2 ^ 32)%N) :
  sum_parts part_indexCount (models s') = N.of_nat (List.length (indexBuffer s')) /\
  indexCount s' = N.of_nat (List.length (indexBuffer s')) /\
  sum_parts part_vertexCount (models s') = vertexCount s' /\
  N.of_nat (List.length (vertexBuffer s')) = (vertexCount s' * N.of_nat (vertexFloats (layout s')))%N.
Proof.
  destruct (addModels_counts_inv scs _ _ counts_inv_new H) as [[Hvb [Hvc [Hic [Hle Hmod]]]] _].
  unfold u32_mod in *.
  rewrite N.mod_small in Hvc, Hic by assumption.
  rewrite (N.mod_small (N.of_nat _)) in Hmod by assumption.
  rewrite N.mod_small in Hmod by lia.
  repeat split; congruence.
Qed.

Lemma addModels_counts_witness :
  exists s',
    addModels newModelGroup [("two.obj"%string, two_triangles_scene); ("one.obj"%string, one_vertex_scene)] = Ok s' /\
    (N.of_nat (List.length (indexBuffer s')) < 2 ^ 32)%N /\
    (sum_parts part_vertexCount (models s') < 2 ^ 32)%N /\
    indexCount s' = 6%N /\ vertexCount s' = 7%N /\
    sum_parts part_indexCount (models s') = N.of_nat (List.length (indexBuffer s')).
Proof.
  eexists.
  assert (H : addModels newModelGroup [("two.obj"%string, two_triangles_scene); ("one.obj"%string, one_vertex_scene)]
              = Ok _) by (vm_compute; reflexivity).
  assert (Hi : (N.of_nat (List.length (indexBuffer (match addModels newModelGroup
      [("two.obj"%string, two_triangles_scene); ("one.obj"%string, one_vertex_scene)] with
      | Ok s => s | UB _ => newModelGroup end))) < 2 ^ 32)%N) by (vm_compute; reflexivity).
  split; [exact H|].
  rewrite H in Hi. cbn beta iota in Hi.
  assert (Hv : (sum_parts part_vertexCount (models (match addModels newModelGroup
      [("two.obj"%string, two_triangles_scene); ("one.obj"%string, one_vertex_scene)] with
      | Ok s => s | UB _ => newModelGroup end)) < 2 ^ 32)%N) by (vm_compute; reflexivity).
  rewrite H in Hv. cbn beta iota in Hv.
  split; [exact Hi|]. split; [exact Hv|].
  split; [vm_compute; reflexivity|]. split; [vm_compute; reflexivity|].
  exact (proj1 (addModels_counts _ _ H Hi Hv)).
Defined.

(** ** The texture registry *)

Lemma mem_app (p : string) (l1 l2 : list string) :
  mem p (l1 ++ l2) = mem p l1 || mem p l2.
Proof. unfold mem. apply existsb_app. Qed.

Lemma mem_In (p : string) (l : list string) : mem p l = true <-> In p l.
Proof.
  unfold mem. rewrite existsb_exists. split.
  - intros [q [Hin Heq]]. apply String.eqb_eq in Heq. subst. exact Hin.
  - intros Hin. exists p. split; [exact Hin|apply String.eqb_refl].
Qed.

Lemma length_zero_empty (p : string) : Nat.eqb (String.length p) 0 = String.eqb p EmptyString.
Proof. destruct p; reflexivity. Qed.

(** The first loop of [prepare] computes the first-seen registry, as long
    as its accumulator and the paths seen so far agree on non-empty
    paths. *)
Lemma fold_addMapPath_keep_first (ams : list aiMaterial) :
  forall acc seen,
  (forall p, p <> EmptyString -> mem p acc = existsb (String.eqb p) seen) ->
  fold_left addMapPath ams acc = acc ++ keep_first seen (map ai_diffuseTex ams).
Proof.
  induction ams as [|am ams IH]; intros acc seen Hag; simpl; [rewrite app_nil_r; reflexivity|].
  unfold addMapPath at 2. rewrite length_zero_empty.
  destruct (String.eqb (ai_diffuseTex am) EmptyString) eqn:Ee; simpl.
  - apply IH. intros p Hp. rewrite existsb_app, Hag by exact Hp. simpl.
    apply String.eqb_eq in Ee. rewrite Ee.
    destruct (String.eqb p EmptyString) eqn:Ep; [apply String.eqb_eq in Ep; contradiction|].
    rewrite orb_false_r. reflexivity.
  - assert (Hne : ai_diffuseTex am <> EmptyString)
      by (intros E; rewrite E in Ee; discriminate).
    rewrite <- (Hag _ Hne).
    destruct (mem (ai_diffuseTex am) acc) eqn:Em; simpl.
    + apply IH. intros p Hp. rewrite existsb_app, <- Hag by exact Hp. simpl.
      destruct (String.eqb p (ai_diffuseTex am)) eqn:Epq; [|rewrite orb_false_r; reflexivity].
      apply String.eqb_eq in Epq. subst. rewrite Em. reflexivity.
    + replace (acc ++ ai_diffuseTex am :: keep_first _ _) with
        ((acc ++ [ai_diffuseTex am]) ++ keep_first (seen ++ [ai_diffuseTex am]) (map ai_diffuseTex ams))
        by (rewrite <- app_assoc; reflexivity).
      apply IH. intros p Hp.
      rewrite mem_app, existsb_app, <- Hag by exact Hp. simpl.
      rewrite orb_false_r. reflexivity.
Qed.

Lemma fold_addMapPath_nodup (ams : list aiMaterial) :
  forall acc, NoDup acc -> NoDup (fold_left addMapPath ams acc).
Proof.
  induction ams as [|am ams IH]; intros acc Hnd; simpl; [exact Hnd|].
  apply IH. unfold addMapPath.
  destruct (Nat.eqb (String.length (ai_diffuseTex am)) 0); [exact Hnd|].
  destruct (mem (ai_diffuseTex am) acc) eqn:Em; [exact Hnd|].
  apply NoDup_app; [exact Hnd|constructor; [intros []|constructor]|].
  intros p Hin [<-|[]]. apply mem_In in Hin. congruence.
Qed.

Lemma fold_addMapPath_incl (ams : list aiMaterial) :
  forall acc am, In am ams -> ai_diffuseTex am <> EmptyString ->
  In (ai_diffuseTex am) (fold_left addMapPath ams acc).
Proof.
  assert (Hmono : forall ams acc p, In p acc -> In p (fold_left addMapPath ams acc)).
  { induction ams0 as [|a ams0 IH0]; intros acc p Hin; simpl; [exact Hin|].
    apply IH0. unfold addMapPath.
    destruct (Nat.eqb _ 0); [exact Hin|]. destruct (mem _ acc); [exact Hin|].
    apply in_or_app; left; exact Hin. }
  induction ams as [|a ams IH]; intros acc am Hin Hne; [destruct Hin|].
  destruct Hin as [<-|Hin]; simpl; [|apply IH; assumption].
  apply Hmono. unfold addMapPath. rewrite length_zero_empty.
  destruct (String.eqb (ai_diffuseTex a) EmptyString) eqn:Ee;
    [apply String.eqb_eq in Ee; contradiction|].
  destruct (mem (ai_diffuseTex a) acc) eqn:Em; [apply mem_In; exact Em|].
  apply in_or_app; right; left; reflexivity.
Qed.

Lemma find_index_In (p : string) (l : list string) :
  In p l -> exists i, find_index p l = Some i /\ nth_error l (N.to_nat i) = Some p.
Proof.
  induction l as [|q l IH]; intros Hin; [destruct Hin|]. simpl.
  destruct (String.eqb p q) eqn:E.
  - apply String.eqb_eq in E; subst. exists 0%N. split; reflexivity.
  - destruct Hin as [->|Hin]; [rewrite String.eqb_refl in E; discriminate|].
    destruct (IH Hin) as [i [Hi Hn]]. exists (N.succ i). rewrite Hi. split; [reflexivity|].
    rewrite N2Nat.inj_succ. exact Hn.
Qed.

Lemma prepare_materials (s s' : ModelGroup) :
  prepare s = Ok s' ->
  materials s' = materials s ++ map (packMaterial (buildMapDic (aiMaterials s))) (aiMaterials s).
Proof.
  unfold prepare.
  destruct (Nat.eqb (List.length (buildMapDic (aiMaterials s))) 0).
  - intros H; inversion H; reflexivity.
  - unfold buildMaterialBuffer, updateMaterialBuffer. cbn.
    destruct (_ <? _)%N; intros H; inversion H; reflexivity.
Qed.

Lemma keep_first_nonempty (ps : list string) :
  forall seen, ~ In EmptyString (keep_first seen ps).
Proof.
  induction ps as [|p ps IH]; intros seen Hin; [destruct Hin|].
  simpl in Hin. apply in_app_or in Hin. destruct Hin as [Hin|Hin]; [|exact (IH _ Hin)].
  destruct (String.eqb p EmptyString) eqn:E; [destruct Hin|].
  destruct (existsb (String.eqb p) seen); [destruct Hin|].
  destruct Hin as [Hp|[]]. subst p. rewrite String.eqb_refl in E. discriminate.
Qed.

Lemma prepare_texArray (s s' : ModelGroup) :
  prepare s = Ok s' -> buildMapDic (aiMaterials s) <> [] ->
  texArray s' = Some (buildMapDic (aiMaterials s), texSize s).
Proof.
  unfold prepare. intros H Hne.
  destruct (Nat.eqb (List.length (buildMapDic (aiMaterials s))) 0) eqn:E.
  - apply Nat.eqb_eq, length_zero_iff_nil in E. contradiction.
  - unfold buildMaterialBuffer, updateMaterialBuffer in H. cbn in H.
    destruct (_ <? _)%N; inversion H; reflexivity.
Qed.

(** ** C6 *)

(** C6: the registry built by [prepare] has no duplicate, holds exactly
    the non-empty diffuse paths of all imported materials in first-seen
    scan order, and becomes the texture array's layer list when it is not
    empty; every imported material with a non-empty diffuse path gets as
    [Md] the registry index of that path, so two materials sharing a
    non-empty path (from any assets) get the same [Md]. *)
Theorem prepare_texture_registry (s s' : ModelGroup) (H : prepare s = Ok s') :
  NoDup (buildMapDic (aiMaterials s)) /\
  buildMapDic (aiMaterials s) = first_seen_paths (aiMaterials s) /\
  ~ In EmptyString (buildMapDic (aiMaterials s)) /\
  (buildMapDic (aiMaterials s) <> [] ->
     texArray s' = Some (buildMapDic (aiMaterials s), texSize s)) /\
  materials s' = materials s ++ map (packMaterial (buildMapDic (aiMaterials s))) (aiMaterials s) /\
  (forall am, In am (aiMaterials s) -> ai_diffuseTex am <> EmptyString ->
     nth_error (buildMapDic (aiMaterials s))
       (N.to_nat (Md (packMaterial (buildMapDic (aiMaterials s)) am))) = Some (ai_diffuseTex am)) /\
  (forall am1 am2, In am1 (aiMaterials s) -> In am2 (aiMaterials s) ->
     ai_diffuseTex am1 = ai_diffuseTex am2 -> ai_diffuseTex am1 <> EmptyString ->
     Md (packMaterial (buildMapDic (aiMaterials s)) am1) =
     Md (packMaterial (buildMapDic (aiMaterials s)) am2)).
Proof.
  assert (Hfs : buildMapDic (aiMaterials s) = first_seen_paths (aiMaterials s)).
  { unfold buildMapDic, first_seen_paths.
    rewrite (fold_addMapPath_keep_first (aiMaterials s) [] []); [reflexivity|].
    intros p _. reflexivity. }
  assert (Hmd : forall am, In am (aiMaterials s) -> ai_diffuseTex am <> EmptyString ->
     nth_error (buildMapDic (aiMaterials s))
       (N.to_nat (Md (packMaterial (buildMapDic (aiMaterials s)) am))) = Some (ai_diffuseTex am)).
  { intros am Hin Hne.
    destruct (find_index_In (ai_diffuseTex am) (buildMapDic (aiMaterials s))
                (fold_addMapPath_incl _ [] am Hin Hne)) as [i [Hi Hn]].
    unfold packMaterial; cbn [Md]. rewrite Hi. exact Hn. }
  split; [apply fold_addMapPath_nodup; constructor|].
  split; [exact Hfs|].
  split; [rewrite Hfs; apply keep_first_nonempty|].
  split; [apply prepare_texArray; exact H|].
  split; [apply prepare_materials; exact H|].
  split; [exact Hmd|].
  intros am1 am2 _ _ Heq _. unfold packMaterial; cbn [Md]. rewrite Heq. reflexivity.
Qed.

(** Four materials over two paths and no texture: registry [a.png, b.png]. *)
Lemma prepare_texture_registry_witness :
  exists s',
    prepare (with_aiMaterials [textured_material "a.png"; shiny_material 0;
                               textured_material "b.png"; textured_material "a.png"]) = Ok s' /\
    buildMapDic (aiMaterials (with_aiMaterials [textured_material "a.png"; shiny_material 0;
                               textured_material "b.png"; textured_material "a.png"]))
      = ["a.png"; "b.png"]%string /\
    map Md (materials s') = [0; 0; 1; 0]%N /\
    NoDup (buildMapDic (aiMaterials (with_aiMaterials [textured_material "a.png"; shiny_material 0;
                               textured_material "b.png"; textured_material "a.png"]))).
Proof.
  eexists.
  assert (H : prepare (with_aiMaterials [textured_material "a.png"; shiny_material 0;
                               textured_material "b.png"; textured_material "a.png"]) = Ok _)
    by (vm_compute; reflexivity).
  split; [exact H|]. split; [vm_compute; reflexivity|]. split; [vm_compute; reflexivity|].
  exact (proj1 (prepare_texture_registry _ _ H)).
Defined.

(** ** C8 *)

(** C8: every material [prepare] packs has [Nr = 0.2] when its shininess
    [Ns] is 0 and [Nr = 10 / Ns] otherwise (so [Ns = 20] gives
    [Nr = 0.5]), and [Nm = 0.9]. *)
Theorem prepare_roughness (s s' : ModelGroup) (H : prepare s = Ok s') :
  forall m, In m (skipn (List.length (materials s)) (materials s')) ->
    Nr m = (if Qeq_bool (Ns m) 0 then 0.2 else 10 / Ns m) /\
    Nm m = 0.9 /\
    (Ns m == 20 -> Nr m == 0.5).
Proof.
  intros m Hin. rewrite (prepare_materials _ _ H), skipn_app, skipn_all, Nat.sub_diag in Hin.
  simpl in Hin. apply in_map_iff in Hin. destruct Hin as [am [<- _]].
  unfold packMaterial; cbn [Nr Nm Ns].
  split; [reflexivity|]. split; [reflexivity|].
  intros H20.
  destruct (Qeq_bool (aiGet (ai_shininess am) 0) 0) eqn:E.
  - apply Qeq_bool_iff in E. rewrite H20 in E. discriminate.
  - rewrite H20. reflexivity.
Qed.

Lemma prepare_roughness_witness :
  exists s',
    prepare (with_aiMaterials [shiny_material 0; shiny_material 20; textured_material "a.png"])
      = Ok s' /\
    map Nr (materials s') = [0.2; 10 / 20; 10 / 20] /\
    (forall m, In m (skipn 0 (materials s')) ->
       Nr m = (if Qeq_bool (Ns m) 0 then 0.2 else 10 / Ns m) /\ Nm m = 0.9 /\
       (Ns m == 20 -> Nr m == 0.5)).
Proof.
  eexists.
  assert (H : prepare (with_aiMaterials [shiny_material 0; shiny_material 20;
                                         textured_material "a.png"]) = Ok _)
    by (vm_compute; reflexivity).
  split; [exact H|]. split; [vm_compute; reflexivity|].
  exact (prepare_roughness _ _ H).
Defined.

(** ** C9 *)

(** C9: when the registry is empty, [prepare] returns at
    [if (mapDic.size()==0) return;] before [buildInstanceBuffer] and
    [buildMaterialBuffer]: besides the texture array, the instance buffer
    and the material table are not built either (they stay as they
    were). *)
Theorem prepare_empty_registry_skips_buffers (s s' : ModelGroup)
    (H : prepare s = Ok s') (Hempty : buildMapDic (aiMaterials s) = []) :
  texArray s' = texArray s /\ instanceBuff s' = instanceBuff s /\
  materialsBuff s' = materialsBuff s.
Proof.
  unfold prepare in H. rewrite Hempty in H. cbn in H. inversion H; subst; clear H.
  repeat split; reflexivity.
Qed.

Lemma prepare_empty_registry_skips_buffers_witness :
  exists s',
    prepare untextured_group = Ok s' /\
    buildMapDic (aiMaterials untextured_group) = [] /\
    instanceBuff s' = None /\ materialsBuff s' = None /\ materials s' <> [] /\
    instanceDatas s' <> [].
Proof.
  eexists.
  assert (H : prepare untextured_group = Ok _) by (vm_compute; reflexivity).
  assert (He : buildMapDic (aiMaterials untextured_group) = []) by (vm_compute; reflexivity).
  split; [exact H|]. split; [exact He|].
  destruct (prepare_empty_registry_skips_buffers _ _ H He) as [_ [Hi Hm]].
  split; [exact Hi|]. split; [exact Hm|].
  split; vm_compute; discriminate.
Defined.

(** ** C7 *)

(** C7: the material table has a fixed capacity of 256 entries, but
    nothing checks the material count against it: with more than 256
    materials and at least one texture, [prepare] uploads the vertex and
    index buffers, builds the texture array and the instance buffer, and
    then [updateMaterialBuffer] copies past the end of the table. *)
Theorem prepare_material_table_overflow (s : ModelGroup)
    (Htex : buildMapDic (aiMaterials s) <> [])
    (Hcap : (256 < List.length (materials s) + List.length (aiMaterials s))%nat) :
  prepare s = UB "memcpy past the end of materialsBuff".
Proof.
  unfold prepare.
  destruct (Nat.eqb (List.length (buildMapDic (aiMaterials s))) 0) eqn:E.
  - apply Nat.eqb_eq, length_zero_iff_nil in E. contradiction.
  - unfold buildMaterialBuffer, updateMaterialBuffer. cbn.
    rewrite length_app, length_map.
    replace (materialBufferEntries <? N.of_nat (List.length (materials s) + List.length (aiMaterials s)))%N
      with true; [reflexivity|].
    symmetry. apply N.ltb_lt. unfold materialBufferEntries. lia.
Qed.

(** 257 textured materials. *)
Lemma prepare_material_table_overflow_witness :
  buildMapDic (aiMaterials (with_aiMaterials (repeat (textured_material "a.png") 257))) <> [] /\
  (256 < List.length (materials (with_aiMaterials (repeat (textured_material "a.png") 257))) +
         List.length (aiMaterials (with_aiMaterials (repeat (textured_material "a.png") 257))))%nat /\
  prepare (with_aiMaterials (repeat (textured_material "a.png") 257)) =
    UB "memcpy past the end of materialsBuff".
Proof.
  assert (H1 : buildMapDic (aiMaterials (with_aiMaterials (repeat (textured_material "a.png") 257)))
               <> []) by (vm_compute; discriminate).
  assert (H2 : (256 < List.length (materials (with_aiMaterials (repeat (textured_material "a.png") 257))) +
         List.length (aiMaterials (with_aiMaterials (repeat (textured_material "a.png") 257))))%nat)
    by (cbn [with_aiMaterials set_aiMaterials materials aiMaterials newModelGroup];
        rewrite repeat_length; simpl; lia).
  split; [exact H1|]. split; [exact H2|].
  exact (prepare_material_table_overflow _ H1 H2).
Defined.

(** * Further properties of the code *)

(** ** [addInstance] *)

Lemma fold_push_instance (m p : N) (datas : list InstanceData) :
  forall s, fold_left (push_instance m p) datas s =
    set_instances s (instances s ++ repeat (mkDrawCommand m p) (List.length datas))
      (instanceDatas s ++ datas).
Proof.
  induction datas as [|dt datas IH]; intros s; simpl.
  - rewrite !app_nil_r. destruct s; reflexivity.
  - rewrite IH. unfold push_instance, set_instances; cbn.
    rewrite <- !app_assoc. reflexivity.
Qed.

Lemma size_to_u32_small (n : nat) : (N.of_nat n < 2 ^ 32)%N -> size_to_u32 n = N.of_nat n.
Proof. intros H. unfold size_to_u32. apply N.mod_small. exact H. Qed.

(** [addInstance(modelIdx, partIdx, datas)] returns the position of the
    first new instance: when [instances] and [instanceDatas] have the same
    length (below [2^32]) and [datas] has fewer than [2^31] entries, entry
    [idx + k] of [instances] is [(modelIdx, partIdx)] and entry [idx + k]
    of [instanceDatas] is [datas[k]]; the two vectors keep the same length
    and nothing else changes. *)
Theorem addInstance_datas_lookup (s : ModelGroup) (m p : N) (datas : list InstanceData)
    (Hal : List.length (instances s) = List.length (instanceDatas s))
    (Hb : (N.of_nat (List.length (instances s)) < 2 ^ 32)%N)
    (Hn : (N.of_nat (List.length datas) < 2 ^ 31)%N) :
  exists idx s',
    addInstance_datas s m p datas = Ok (idx, s') /\
    idx = N.of_nat (List.length (instances s)) /\
    s' = set_instances s (instances s ++ repeat (mkDrawCommand m p) (List.length datas))
           (instanceDatas s ++ datas) /\
    List.length (instances s') = List.length (instanceDatas s') /\
    (forall k dt, nth_error datas k = Some dt ->
       nth_error (instances s') (N.to_nat idx + k) = Some (mkDrawCommand m p) /\
       nth_error (instanceDatas s') (N.to_nat idx + k) = Some dt).
Proof.
  unfold addInstance_datas.
  replace (2 ^ 31 <=? N.of_nat (List.length datas))%N with false
    by (symmetry; apply N.leb_gt; exact Hn).
  rewrite fold_push_instance, size_to_u32_small by exact Hb.
  do 2 eexists. split; [reflexivity|]. split; [reflexivity|]. split; [reflexivity|].
  cbn [set_instances instances instanceDatas].
  split; [rewrite !length_app, repeat_length, Hal; reflexivity|].
  intros k dt Hk. rewrite Nat2N.id. split.
  - rewrite nth_error_app2 by lia. replace (_ + k - _)%nat with k by lia.
    apply nth_error_repeat. apply nth_error_Some. rewrite Hk. discriminate.
  - rewrite Hal, nth_error_app2 by lia. replace (_ + k - _)%nat with k by lia. exact Hk.
Qed.

Lemma addInstance_datas_lookup_witness :
  exists idx s',
    addInstance_datas newModelGroup 1 0 [mkInstanceData 4 []; mkInstanceData 5 []] = Ok (idx, s') /\
    idx = 0%N /\
    nth_error (instanceDatas s') 1 = Some (mkInstanceData 5 []) /\
    nth_error (instances s') 1 = Some (mkDrawCommand 1 0).
Proof.
  assert (Hal : List.length (instances newModelGroup) = List.length (instanceDatas newModelGroup))
    by reflexivity.
  assert (Hb : (N.of_nat (List.length (instances newModelGroup)) < 2 ^ 32)%N)
    by (vm_compute; reflexivity).
  assert (Hn : (N.of_nat (List.length [mkInstanceData 4 []; mkInstanceData 5 []]) < 2 ^ 31)%N)
    by (vm_compute; reflexivity).
  destruct (addInstance_datas_lookup newModelGroup 1 0 _ Hal Hb Hn)
    as [idx [s' [H [Hidx [_ [_ Hk]]]]]].
  exists idx, s'. split; [exact H|]. split; [exact Hidx|].
  destruct (Hk 1%nat (mkInstanceData 5 []) eq_refl) as [H1 H2].
  rewrite Hidx in H1, H2. split; [exact H2|exact H1].
Defined.

(** ** [updateInstancesBuffer] after new instances *)

Lemma set_device_same (s : ModelGroup) :
  set_device s (vertices s) (indices s) (instanceBuff s) (materialsBuff s) (texArray s) = s.
Proof. destruct s; reflexivity. Qed.

(** Once the instance buffer holds the instance data (as [prepare] leaves
    it), [updateInstancesBuffer] leaves it as it is; after one more
    [addInstance], [updateInstancesBuffer] copies past the end of the
    buffer (its size was fixed by the last [buildInstanceBuffer]), while
    [buildInstanceBuffer] makes a buffer that holds all the instance
    data, on which [updateInstancesBuffer] is again harmless. *)
Theorem updateInstancesBuffer_after_addInstance (s : ModelGroup) (m p : N) (dt : InstanceData)
    (Hbuilt : instanceBuff s = Some (instanceDatas s)) :
  updateInstancesBuffer s = Ok s /\
  updateInstancesBuffer (snd (addInstance_data s m p dt)) =
    UB "memcpy past the end of instanceBuff" /\
  instanceBuff (buildInstanceBuffer (snd (addInstance_data s m p dt))) =
    Some (instanceDatas s ++ [dt]) /\
  updateInstancesBuffer (buildInstanceBuffer (snd (addInstance_data s m p dt))) =
    Ok (buildInstanceBuffer (snd (addInstance_data s m p dt))).
Proof.
  split; [|split; [|split]].
  - unfold updateInstancesBuffer. rewrite Hbuilt, N.ltb_irrefl, skipn_all, app_nil_r, <- Hbuilt.
    apply f_equal, set_device_same.
  - unfold updateInstancesBuffer. cbn. rewrite Hbuilt.
    replace (N.of_nat (List.length (instanceDatas s)) <?
             N.of_nat (List.length (instanceDatas s ++ [dt])))%N with true; [reflexivity|].
    symmetry. apply N.ltb_lt. rewrite length_app. simpl. lia.
  - reflexivity.
  - unfold updateInstancesBuffer. cbn [buildInstanceBuffer set_device instanceBuff instanceDatas].
    rewrite N.ltb_irrefl, skipn_all, app_nil_r. reflexivity.
Qed.

(** The group left by [prepare] on [textured_group]. *)
Lemma updateInstancesBuffer_after_addInstance_witness :
  prepare textured_group = Ok (ok_or (prepare textured_group) newModelGroup) /\
  instanceBuff (ok_or (prepare textured_group) newModelGroup) =
    Some (instanceDatas (ok_or (prepare textured_group) newModelGroup)) /\
  updateInstancesBuffer (snd (addInstance_data (ok_or (prepare textured_group) newModelGroup)
                                0 0 (mkInstanceData 0 []))) =
    UB "memcpy past the end of instanceBuff".
Proof.
  assert (Hb : instanceBuff (ok_or (prepare textured_group) newModelGroup) =
               Some (instanceDatas (ok_or (prepare textured_group) newModelGroup)))
    by (vm_compute; reflexivity).
  split; [vm_compute; reflexivity|]. split; [exact Hb|].
  exact (proj1 (proj2 (updateInstancesBuffer_after_addInstance _ 0 0 (mkInstanceData 0 []) Hb))).
Defined.

(** ** [buildCommandBuffer] with [addInstance] *)

(** The first part of C1's statement, as a lemma of its own. *)
Lemma buildCommandBuffer_runs_eq (s : ModelGroup) :
  instances s <> [] -> (N.of_nat (List.length (instances s)) < 2 ^ 31)%N ->
  buildCommandBuffer s = run_draws (models s) (runs (instances s)).
Proof.
  intros Hne Hlen. unfold buildCommandBuffer.
  destruct (instances s) as [|c0 l] eqn:E; [contradiction|].
  cbn [at_ nth_error N.to_nat bind].
  assert (Hb : (2 ^ 31 <=? N.of_nat (List.length (c0 :: l)))%N = false)
    by (apply N.leb_gt; exact Hlen).
  rewrite Hb.
  cbn [bcb_loop b_modIdx b_partIdx b_instCount b_instOffset b_cmds].
  rewrite !N.eqb_refl. cbn [negb orb bind b_modIdx b_partIdx b_instCount b_instOffset b_cmds].
  pose proof (bcb_loop_runs (models s) l 1 0 0 c0 []) as HL.
  etransitivity; [apply HL; simpl in Hlen |- *; lia|]. clear HL.
  unfold runs. change (repeat c0 1 ++ l) with (c0 :: l).
  destruct (run_draws (models s) (place 0 (group (c0 :: l)))); reflexivity.
Qed.

(** [count] instances of one key added by a single [addInstance] call on
    a group without instances are drawn by one [vkCmdDrawIndexed] with
    that part's geometry, [instanceCount = count] and
    [firstInstance = 0]; if the model or the part does not exist, the
    draw reads out of range. *)
Theorem addInstance_datas_single_draw (s : ModelGroup) (m p : N) (datas : list InstanceData)
    (Hempty : instances s = []) (Hne : datas <> [])
    (Hn : (N.of_nat (List.length datas) < 2 ^ 31)%N) :
  exists s',
    addInstance_datas s m p datas = Ok (0%N, s') /\
    buildCommandBuffer s' =
      let* part := part_at (models s) m p in
      Ok [mkDrawIndexed (part_indexCount part) (N.of_nat (List.length datas))
            (indexBase part) (vertexBase part) 0].
Proof.
  unfold addInstance_datas.
  replace (2 ^ 31 <=? N.of_nat (List.length datas))%N with false
    by (symmetry; apply N.leb_gt; exact Hn).
  rewrite fold_push_instance, Hempty.
  eexists. split; [reflexivity|].
  destruct datas as [|d0 ds]; [contradiction|].
  rewrite buildCommandBuffer_runs_eq; cbn [set_instances instances models];
    [|discriminate|rewrite app_nil_l, repeat_length; exact Hn].
  rewrite app_nil_l. unfold runs.
  rewrite <- (app_nil_r (repeat _ (List.length (d0 :: ds)))).
  cbn [List.length]. rewrite group_repeat_nil.
  cbn [place run_draws run_draw]. unfold drawIndexed.
  rewrite !bind_assoc. apply bind_ext. intros part. reflexivity.
Qed.

(** Three instances of model 1, part 1 of [batching_example]. *)
Lemma addInstance_datas_single_draw_witness :
  exists s',
    addInstance_datas (set_instances batching_example [] []) 1 1
      [mkInstanceData 0 []; mkInstanceData 0 []; mkInstanceData 0 []] = Ok (0%N, s') /\
    buildCommandBuffer s' = Ok [mkDrawIndexed 3 3 9 6 0].
Proof.
  assert (H1 : instances (set_instances batching_example [] []) = []) by reflexivity.
  assert (H2 : [mkInstanceData 0 []; mkInstanceData 0 []; mkInstanceData 0 []] <> [])
    by discriminate.
  assert (H3 : (N.of_nat (List.length [mkInstanceData 0 []; mkInstanceData 0 [];
                                       mkInstanceData 0 []]) < 2 ^ 31)%N)
    by (vm_compute; reflexivity).
  destruct (addInstance_datas_single_draw _ 1 1 _ H1 H2 H3) as [s' [H Hd]].
  exists s'. split; [exact H|]. rewrite Hd. reflexivity.
Defined.

Lemma run_draws_parts (ms : list Model) (rs : list (DrawCommand * nat * nat))
    (ds : list DrawIndexed) :
  run_draws ms rs = Ok ds ->
  forall c n off, In (c, n, off) rs ->
  exists part, part_at ms (modelIndex c) (partIndex c) = Ok part.
Proof.
  revert ds. induction rs as [|rn rs IH]; intros ds H c n off Hin; [destruct Hin|].
  cbn [run_draws] in H.
  destruct (run_draw ms rn) as [dc|w] eqn:E1; [|discriminate].
  cbn [bind] in H.
  destruct (run_draws ms rs) as [ds'|w] eqn:E2; [|discriminate].
  destruct Hin as [->|Hin]; [|exact (IH _ eq_refl _ _ _ Hin)].
  cbn [run_draw] in E1. unfold drawIndexed in E1.
  destruct (part_at ms (modelIndex c) (partIndex c)) as [part|w]; [|discriminate].
  exists part. reflexivity.
Qed.

(** Whenever [buildCommandBuffer] records its draws without UB, every
    instance names an existing model and part: an instance whose model or
    part does not exist always makes it read [models] or [parts] out of
    range. *)
Theorem buildCommandBuffer_parts_exist (s : ModelGroup) (ds : list DrawIndexed)
    (H : buildCommandBuffer s = Ok ds) :
  forall c, In c (instances s) ->
  exists part, part_at (models s) (modelIndex c) (partIndex c) = Ok part.
Proof.
  intros c Hin.
  assert (Hne : instances s <> []) by (intros E; rewrite E in Hin; destruct Hin).
  assert (Hlen : (N.of_nat (List.length (instances s)) < 2 ^ 31)%N).
  { apply N.nle_gt. intros Hle. unfold buildCommandBuffer in H.
    destruct (at_ (instances s) 0 _); [|discriminate]. cbn [bind] in H.
    apply N.leb_le in Hle. rewrite Hle in H. discriminate. }
  rewrite buildCommandBuffer_runs_eq in H by assumption.
  assert (Hf : In c (runs_flatten (runs (instances s))))
    by (unfold runs; rewrite place_flatten, group_flatten; exact Hin).
  unfold runs_flatten in Hf. apply in_flat_map in Hf.
  destruct Hf as [[[c' n] off] [Hrn Hc]]. apply repeat_spec in Hc. subst c'.
  exact (run_draws_parts _ _ _ H c n off Hrn).
Qed.

Lemma buildCommandBuffer_parts_exist_witness :
  exists ds, buildCommandBuffer batching_example = Ok ds /\
  exists part, part_at (models batching_example) 1 1 = Ok part.
Proof.
  assert (H : buildCommandBuffer batching_example =
              Ok (ok_or (buildCommandBuffer batching_example) [])) by (vm_compute; reflexivity).
  eexists. split; [exact H|].
  exact (buildCommandBuffer_parts_exist _ _ H (mkDrawCommand 1 1) (or_intror (or_intror (or_introl eq_refl)))).
Defined.

(** ** [VertexLayout::stride()] and the vertex buffer *)

(** After any sequence of successful [addModel] calls on a new group
    (below [2^32] vertices in total), the stride of the group's layout is
    32 bytes and the shared vertex buffer holds exactly
    [vertexCount * stride] bytes, which is the size [prepare] uploads. *)
Theorem addModels_vertex_bytes (scs : list (string * aiScene)) (s : ModelGroup)
    (H : addModels newModelGroup scs = Ok s)
    (Hv : (sum_parts part_vertexCount (models s) < 2 ^ 32)%N) :
  stride (layout s) = 32%N /\
  (4 * N.of_nat (List.length (vertexBuffer s)) = vertexCount s * stride (layout s))%N.
Proof.
  destruct (addModels_counts_inv scs _ _ counts_inv_new H) as [[Hvb [Hvc _]] Hlay].
  rewrite Hlay in Hvb |- *.
  assert (Hs : stride (layout newModelGroup) = 32%N) by reflexivity.
  assert (Hf : vertexFloats (layout newModelGroup) = 8%nat) by reflexivity.
  rewrite Hs. split; [reflexivity|].
  rewrite Hf in Hvb. rewrite Hvb, Hvc. unfold u32_mod. rewrite N.mod_small by exact Hv.
  change (N.of_nat 8) with 8%N. lia.
Qed.

Lemma addModels_vertex_bytes_witness :
  exists s,
    addModels newModelGroup [("two.obj"%string, two_triangles_scene)] = Ok s /\
    (sum_parts part_vertexCount (models s) < 2 ^ 32)%N /\
    List.length (vertexBuffer s) = 48%nat /\ vertexCount s = 6%N /\
    (4 * N.of_nat (List.length (vertexBuffer s)) = vertexCount s * stride (layout s))%N.
Proof.
  assert (H : addModels newModelGroup [("two.obj"%string, two_triangles_scene)] =
              Ok (ok_or (addModels newModelGroup [("two.obj"%string, two_triangles_scene)])
                        newModelGroup)) by (vm_compute; reflexivity).
  assert (Hv : (sum_parts part_vertexCount (models (ok_or (addModels newModelGroup
                  [("two.obj"%string, two_triangles_scene)]) newModelGroup)) < 2 ^ 32)%N)
    by (vm_compute; reflexivity).
  eexists. split; [exact H|]. split; [exact Hv|].
  split; [vm_compute; reflexivity|]. split; [vm_compute; reflexivity|].
  exact (proj2 (addModels_vertex_bytes _ _ H Hv)).
Defined.

(** ** What [prepare] keeps, uploads and can fail on *)

Lemma prepare_keeps (s s' : ModelGroup) :
  prepare s = Ok s' ->
  aiMaterials s' = aiMaterials s /\ models s' = models s /\ instances s' = instances s /\
  instanceDatas s' = instanceDatas s /\ vertexBuffer s' = vertexBuffer s /\
  indexBuffer s' = indexBuffer s /\ texSize s' = texSize s /\
  vertices s' = Some (vertexBuffer s) /\ indices s' = Some (indexBuffer s).
Proof.
  unfold prepare.
  destruct (Nat.eqb (List.length (buildMapDic (aiMaterials s))) 0).
  - intros H; inversion H; repeat split; reflexivity.
  - unfold buildMaterialBuffer, updateMaterialBuffer. cbn.
    destruct (_ <? _)%N; intros H; inversion H; repeat split; reflexivity.
Qed.





(** [prepare] is not idempotent: a second call packs every imported
    material again and appends it, so the material list holds each
    packed material twice. *)
Theorem prepare_twice_duplicates (s s1 s2 : ModelGroup)
    (H1 : prepare s = Ok s1) (H2 : prepare s1 = Ok s2) :
  materials s2 =
    materials s ++ map (packMaterial (buildMapDic (aiMaterials s))) (aiMaterials s)
                ++ map (packMaterial (buildMapDic (aiMaterials s))) (aiMaterials s).
Proof.
  rewrite (prepare_materials _ _ H2), (prepare_materials _ _ H1).
  destruct (prepare_keeps _ _ H1) as [Ha _]. rewrite Ha, <- app_assoc. reflexivity.
Qed.

Lemma prepare_twice_duplicates_witness :
  exists s1 s2,
    prepare (with_aiMaterials [shiny_material 0; shiny_material 20]) = Ok s1 /\
    prepare s1 = Ok s2 /\
    List.length (materials s2) = 4%nat /\
    materials s2 = materials (with_aiMaterials [shiny_material 0; shiny_material 20]) ++
      map (packMaterial []) [shiny_material 0; shiny_material 20] ++
      map (packMaterial []) [shiny_material 0; shiny_material 20].
Proof.
  assert (H1 : prepare (with_aiMaterials [shiny_material 0; shiny_material 20]) =
               Ok (ok_or (prepare (with_aiMaterials [shiny_material 0; shiny_material 20]))
                         newModelGroup)) by (vm_compute; reflexivity).
  assert (H2 : prepare (ok_or (prepare (with_aiMaterials [shiny_material 0; shiny_material 20]))
                         newModelGroup) =
               Ok (ok_or (prepare (ok_or (prepare (with_aiMaterials [shiny_material 0; shiny_material 20]))
                         newModelGroup)) newModelGroup)) by (vm_compute; reflexivity).
  do 2 eexists. split; [exact H1|]. split; [exact H2|].
  split; [vm_compute; reflexivity|].
  exact (prepare_twice_duplicates _ _ _ H1 H2).
Defined.

(** ** Material indices across [addModel], [addInstance] and [prepare] *)

Lemma Forall2_nth_error_l {A B} (P : A -> B -> Prop) (l1 : list A) (l2 : list B) :
  Forall2 P l1 l2 -> forall j a, nth_error l1 j = Some a ->
  exists c, nth_error l2 j = Some c /\ P a c.
Proof.
  induction 1 as [|a0 c0 l1 l2 Hp Hf IH]; intros j a Hj; [destruct j; discriminate|].
  destruct j as [|j]; simpl in Hj |- *.
  - inversion Hj; subst. exists c0. split; [reflexivity|exact Hp].
  - exact (IH j a Hj).
Qed.

Lemma loadMesh_material (sc : aiScene) (off : N) (s : ModelGroup) (dm : Dimension)
    (mesh : aiMesh) (s1 : ModelGroup) (dm1 : Dimension) (p : ModelPart) :
  loadMesh sc off s dm mesh = Ok (s1, dm1, p) ->
  materialIdx p = u32_add (mMaterialIndex mesh) off /\
  aiMaterials s1 = aiMaterials s /\ materials s1 = materials s /\ models s1 = models s /\
  (N.to_nat (mMaterialIndex mesh) < List.length (mMaterials sc))%nat.
Proof.
  unfold loadMesh, at_.
  destruct (nth_error (mMaterials sc) (N.to_nat (mMaterialIndex mesh))) as [mat|] eqn:Em;
    [|discriminate].
  cbn [bind]. rewrite addVertices_eq.
  destruct (fold_left addFace (mFaces mesh) (indexBuffer s, 0%N, indexCount s))
    as [[ib pic] ic] eqn:Ef.
  intros H; inversion H; subst; clear H.
  repeat split; try reflexivity.
  apply nth_error_Some. rewrite Em. discriminate.
Qed.

Lemma loadMeshes_material (sc : aiScene) (off : N) (ms : list aiMesh) :
  forall s dm s2 dm2 ps,
  loadMeshes sc off s dm ms = Ok (s2, dm2, ps) ->
  aiMaterials s2 = aiMaterials s /\ materials s2 = materials s /\ models s2 = models s /\
  Forall2 (fun mesh p => materialIdx p = u32_add (mMaterialIndex mesh) off /\
                         (N.to_nat (mMaterialIndex mesh) < List.length (mMaterials sc))%nat) ms ps.
Proof.
  induction ms as [|mesh ms IH]; intros s dm s2 dm2 ps H.
  - simpl in H. inversion H; subst. repeat split; constructor.
  - simpl in H.
    destruct (loadMesh sc off s dm mesh) as [[[s1 dm1] p]|w] eqn:E1; [|discriminate].
    simpl in H.
    destruct (loadMeshes sc off s1 dm1 ms) as [[[s3 dm3] ps3]|w] eqn:E2; [|discriminate].
    simpl in H. inversion H; subst; clear H.
    destruct (loadMesh_material _ _ _ _ _ _ _ _ E1) as [Hi [Ha [Hm [Hmo Hlt]]]].
    destruct (IH _ _ _ _ _ E2) as [Ha2 [Hm2 [Hmo2 Hf]]].
    split; [congruence|]. split; [congruence|]. split; [congruence|].
    constructor; [split; assumption|exact Hf].
Qed.

Lemma addModel_material (s s' : ModelGroup) (f : string) (sc : aiScene) (idx : Z)
    (out : list string) :
  addModel s f (Scene sc) = Ok (idx, s', out) ->
  aiMaterials s' = aiMaterials s ++ mMaterials sc /\ materials s' = materials s /\
  exists ps dm,
    models s' = models s ++ [mkModel ps dm] /\
    Forall2 (fun mesh p =>
               materialIdx p = u32_add (mMaterialIndex mesh) (size_to_u32 (List.length (aiMaterials s))) /\
               (N.to_nat (mMaterialIndex mesh) < List.length (mMaterials sc))%nat)
            (mMeshes sc) ps.
Proof.
  intros H. unfold addModel in H.
  destruct (loadMeshes sc (size_to_u32 (List.length (aiMaterials s)))
              (set_aiMaterials s (aiMaterials s ++ mMaterials sc)) dim_default (mMeshes sc))
    as [[[s2 dm] ps]|w] eqn:E; [|discriminate].
  simpl in H. inversion H; subst; clear H.
  destruct (loadMeshes_material _ _ _ _ _ _ _ _ E) as [Ha [Hm [Hmo Hf]]].
  cbn [set_models aiMaterials materials models]. rewrite Ha, Hm, Hmo.
  split; [reflexivity|]. split; [reflexivity|].
  exists ps, dm. split; [reflexivity|exact Hf].
Qed.

Lemma addModels_aiMaterials_prefix (scs : list (string * aiScene)) :
  forall s0 s, addModels s0 scs = Ok s ->
  (exists l, aiMaterials s = aiMaterials s0 ++ l) /\ materials s = materials s0.
Proof.
  induction scs as [|[f sc] scs IH]; intros s0 s H.
  - simpl in H. inversion H; subst. split; [exists []; symmetry; apply app_nil_r|reflexivity].
  - cbn [addModels] in H.
    destruct (addModel s0 f (Scene sc)) as [[[idx s1] out]|w] eqn:E; [|discriminate].
    cbn [bind] in H.
    destruct (addModel_material _ _ _ _ _ _ E) as [Ha [Hm _]].
    destruct (IH _ _ H) as [[l Hl] Hm2].
    split; [|congruence].
    exists (mMaterials sc ++ l). rewrite Hl, Ha, app_assoc. reflexivity.
Qed.

Lemma u32_offset (len : nat) (i : N) :
  (N.of_nat len + i < 2 ^ 32)%N -> u32_add i (size_to_u32 len) = (N.of_nat len + i)%N.
Proof.
  intros H. unfold u32_add, size_to_u32, u32_mod.
  rewrite (N.mod_small (N.of_nat len)) by lia. rewrite N.mod_small by lia. lia.
Qed.

Lemma addModel_links (s0 s1 : ModelGroup) (done : list (string * aiScene)) (f : string)
    (sc : aiScene) (idx : Z) (out : list string) :
  addModel s0 f (Scene sc) = Ok (idx, s1, out) ->
  (N.of_nat (List.length (aiMaterials s1)) < 2 ^ 32)%N ->
  List.length (models s0) = List.length done -> material_links s0 done ->
  material_links s1 (done ++ [(f, sc)]) /\
  List.length (models s1) = List.length (done ++ [(f, sc)]).
Proof.
  intros H Hb Hlen Hlinks.
  destruct (addModel_material _ _ _ _ _ _ H) as [Ha [_ [ps [dm [Hmo Hf]]]]].
  split; [|rewrite Hmo, !length_app, Hlen; reflexivity].
  intros k f' sc' md j mesh part Hk Hmd Hmesh Hpart.
  destruct (Nat.lt_ge_cases k (List.length done)) as [Hlt|Hge].
  - rewrite nth_error_app1 in Hk by exact Hlt.
    rewrite Hmo, nth_error_app1 in Hmd by lia.
    destruct (Hlinks _ _ _ _ _ _ _ Hk Hmd Hmesh Hpart) as [am [H1 H2]].
    exists am. split; [exact H1|]. rewrite Ha, nth_error_app1; [exact H2|].
    apply nth_error_Some. rewrite H2. discriminate.
  - rewrite nth_error_app2 in Hk by exact Hge.
    destruct (k - List.length done)%nat as [|n] eqn:Ek; simpl in Hk; [|destruct n; discriminate].
    inversion Hk; subst f' sc'; clear Hk.
    assert (Hk : k = List.length done) by lia. subst k.
    rewrite Hmo, nth_error_app2 in Hmd by lia.
    rewrite Hlen, Nat.sub_diag in Hmd. simpl in Hmd. inversion Hmd; subst md; clear Hmd.
    cbn [parts] in Hpart.
    destruct (Forall2_nth_error_l _ _ _ Hf j mesh Hmesh) as [p' [Hp' [Hidx Hlt]]].
    rewrite Hpart in Hp'. inversion Hp'; subst p'; clear Hp'.
    destruct (nth_error (mMaterials sc) (N.to_nat (mMaterialIndex mesh))) as [am|] eqn:Eam;
      [|apply nth_error_Some in Hlt; contradiction].
    exists am. split; [reflexivity|].
    rewrite Ha in Hb |- *. rewrite length_app in Hb.
    rewrite Hidx, u32_offset by lia.
    rewrite N2Nat.inj_add, Nat2N.id, nth_error_app2 by lia.
    replace (List.length (aiMaterials s0) + N.to_nat (mMaterialIndex mesh) -
             List.length (aiMaterials s0))%nat with (N.to_nat (mMaterialIndex mesh)) by lia.
    exact Eam.
Qed.

Lemma addModels_links (scs : list (string * aiScene)) :
  forall s0 s done, addModels s0 scs = Ok s ->
  (N.of_nat (List.length (aiMaterials s)) < 2 ^ 32)%N ->
  List.length (models s0) = List.length done -> material_links s0 done ->
  material_links s (done ++ scs).
Proof.
  induction scs as [|[f sc] scs IH]; intros s0 s done H Hb Hlen Hlinks.
  - simpl in H. inversion H; subst. rewrite app_nil_r. exact Hlinks.
  - cbn [addModels] in H.
    destruct (addModel s0 f (Scene sc)) as [[[idx s1] out]|w] eqn:E; [|discriminate].
    cbn [bind] in H.
    destruct (addModels_aiMaterials_prefix _ _ _ H) as [[l Hl] _].
    assert (Hb1 : (N.of_nat (List.length (aiMaterials s1)) < 2 ^ 32)%N)
      by (rewrite Hl, length_app in Hb; lia).
    destruct (addModel_links _ _ done _ _ _ _ E Hb1 Hlen Hlinks) as [Hl1 Hlen1].
    replace (done ++ (f, sc) :: scs) with ((done ++ [(f, sc)]) ++ scs)
      by (rewrite <- app_assoc; reflexivity).
    exact (IH _ _ _ H Hb Hlen1 Hl1).
Qed.

(** After any sequence of successful [addModel] calls on a new group and
    a successful [prepare] (fewer than [2^32] imported materials), the
    [materialIdx] of part [j] of model [k] is a valid index of
    [materials], and the material there is the one [prepare] packed from
    the material that mesh [j] of scene [k] names in its own scene. *)
Theorem addModels_prepare_material_index (scs : list (string * aiScene)) (s s' : ModelGroup)
    (H : addModels newModelGroup scs = Ok s) (Hp : prepare s = Ok s')
    (Hb : (N.of_nat (List.length (aiMaterials s)) < 2 ^ 32)%N) :
  forall k f sc md j mesh part,
    nth_error scs k = Some (f, sc) -> nth_error (models s') k = Some md ->
    nth_error (mMeshes sc) j = Some mesh -> nth_error (parts md) j = Some part ->
    exists am,
      nth_error (mMaterials sc) (N.to_nat (mMaterialIndex mesh)) = Some am /\
      nth_error (materials s') (N.to_nat (materialIdx part)) =
        Some (packMaterial (buildMapDic (aiMaterials s)) am).
Proof.
  intros k f sc md j mesh part Hk Hmd Hmesh Hpart.
  assert (Hl0 : material_links newModelGroup []) by (intros k' ? ? ? ? ? ? Hk'; destruct k'; discriminate).
  pose proof (addModels_links scs _ _ [] H Hb eq_refl Hl0) as Hl.
  destruct (prepare_keeps _ _ Hp) as [_ [Hmo _]].
  rewrite Hmo in Hmd.
  destruct (Hl _ _ _ _ _ _ _ Hk Hmd Hmesh Hpart) as [am [H1 H2]].
  exists am. split; [exact H1|].
  rewrite (prepare_materials _ _ Hp).
  destruct (addModels_aiMaterials_prefix _ _ _ H) as [_ Hm]. rewrite Hm. cbn [newModelGroup materials app].
  rewrite nth_error_map, H2. reflexivity.
Qed.

(** Model 1 is [second_material_scene]: its part uses global material 2,
    the packed [b.png] material. *)
Lemma addModels_prepare_material_index_witness :
  exists s s' am,
    addModels newModelGroup [("two.obj"%string, two_triangles_scene);
                             ("second.obj"%string, second_material_scene)] = Ok s /\
    prepare s = Ok s' /\
    map (fun md => map materialIdx (parts md)) (models s') = [[0; 0]; [2]]%N /\
    nth_error (materials s') 2 = Some (packMaterial ["b.png"%string] am) /\
    am = textured_material "b.png".
Proof.
  set (scs := [("two.obj"%string, two_triangles_scene);
               ("second.obj"%string, second_material_scene)]).
  assert (H : addModels newModelGroup scs = Ok (ok_or (addModels newModelGroup scs) newModelGroup))
    by (vm_compute; reflexivity).
  assert (Hp : prepare (ok_or (addModels newModelGroup scs) newModelGroup) =
               Ok (ok_or (prepare (ok_or (addModels newModelGroup scs) newModelGroup)) newModelGroup))
    by (vm_compute; reflexivity).
  assert (Hb : (N.of_nat (List.length (aiMaterials (ok_or (addModels newModelGroup scs)
                  newModelGroup))) < 2 ^ 32)%N) by (vm_compute; reflexivity).
  assert (Hmd : exists D, nth_error (models (ok_or (prepare (ok_or (addModels newModelGroup scs)
                  newModelGroup)) newModelGroup)) 1 = Some (mkModel [mkPart 6 3 6 3 2] D))
    by (eexists; vm_compute; reflexivity).
  destruct Hmd as [D Hmd].
  destruct (addModels_prepare_material_index scs _ _ H Hp Hb 1 _ _ _ 0 _ _ eq_refl Hmd eq_refl eq_refl)
    as [am [Ham Hmat]].
  do 3 eexists. split; [exact H|]. split; [exact Hp|].
  split; [vm_compute; reflexivity|].
  cbn [materialIdx N.to_nat] in Hmat.
  assert (Hdic : buildMapDic (aiMaterials (ok_or (addModels newModelGroup scs) newModelGroup)) =
                 ["b.png"%string]) by (vm_compute; reflexivity).
  rewrite Hdic in Hmat.
  split; [exact Hmat|]. cbn in Ham. inversion Ham. reflexivity.
Defined.

(** After [addModel] put a scene in as model [n = models.size()] (the
    index it returns), [addInstance(n, j, modelMat)] for a mesh [j] of
    that scene appends the key [(n, j)] and an instance whose
    [materialIndex] is the position, in [aiMaterials], of the material
    that mesh names (the material offset plus its [mMaterialIndex]); for
    [j] past the scene's meshes it reads [parts] out of range.  Fewer than
    [2^32] imported materials in all. *)
Theorem addModel_addInstance_mat (s s1 : ModelGroup) (f : string) (sc : aiScene) (idx : Z)
    (out : list string) (M : list Q)
    (H : addModel s f (Scene sc) = Ok (idx, s1, out))
    (Hb : (N.of_nat (List.length (aiMaterials s1)) < 2 ^ 32)%N) :
  (forall j mesh, nth_error (mMeshes sc) j = Some mesh ->
     exists s2,
       addInstance_mat s1 (N.of_nat (List.length (models s))) (N.of_nat j) M =
         Ok (size_to_u32 (List.length (instances s1)), s2) /\
       instances s2 = instances s1 ++ [mkDrawCommand (N.of_nat (List.length (models s))) (N.of_nat j)] /\
       instanceDatas s2 = instanceDatas s1 ++
         [mkInstanceData (N.of_nat (List.length (aiMaterials s)) + mMaterialIndex mesh) M] /\
       exists am,
         nth_error (mMaterials sc) (N.to_nat (mMaterialIndex mesh)) = Some am /\
         nth_error (aiMaterials s1)
           (N.to_nat (N.of_nat (List.length (aiMaterials s)) + mMaterialIndex mesh)) = Some am) /\
  (forall j, (List.length (mMeshes sc) <= j)%nat ->
     addInstance_mat s1 (N.of_nat (List.length (models s))) (N.of_nat j) M =
       UB "parts[partIdx] out of range").
Proof.
  destruct (addModel_material _ _ _ _ _ _ H) as [Ha [_ [ps [dm [Hmo Hf]]]]].
  assert (Hpm : part_at (models s1) (N.of_nat (List.length (models s))) =
                fun pi => at_ ps pi "parts[partIdx] out of range").
  { unfold part_at, at_. rewrite Hmo, Nat2N.id, nth_error_app2, Nat.sub_diag by lia.
    reflexivity. }
  split.
  - intros j mesh Hmesh.
    destruct (Forall2_nth_error_l _ _ _ Hf j mesh Hmesh) as [p [Hp [Hidx Hlt]]].
    unfold addInstance_mat. cbn [set_instances models instances instanceDatas].
    rewrite Hpm. unfold at_. rewrite Nat2N.id, Hp. cbn [bind].
    rewrite Ha, length_app in Hb.
    rewrite Hidx, u32_offset by lia.
    eexists. split; [reflexivity|]. split; [reflexivity|]. split; [reflexivity|].
    destruct (nth_error (mMaterials sc) (N.to_nat (mMaterialIndex mesh))) as [am|] eqn:Eam;
      [|apply nth_error_Some in Hlt; contradiction].
    exists am. split; [reflexivity|].
    rewrite Ha, N2Nat.inj_add, Nat2N.id, nth_error_app2 by lia.
    replace (List.length (aiMaterials s) + N.to_nat (mMaterialIndex mesh) -
             List.length (aiMaterials s))%nat with (N.to_nat (mMaterialIndex mesh)) by lia.
    exact Eam.
  - intros j Hj. unfold addInstance_mat. cbn [set_instances models instances instanceDatas].
    rewrite Hpm. unfold at_. rewrite Nat2N.id.
    replace (nth_error ps j) with (@None ModelPart); [reflexivity|].
    symmetry. apply nth_error_None. apply Forall2_length in Hf. lia.
Qed.

(** [second_material_scene] added after [two_triangles_scene]: mesh 0
    gets material 2; there is no mesh 1. *)
Lemma addModel_addInstance_mat_witness :
  exists s1 out s2,
    addModel (ok_or (addModels newModelGroup [("two.obj"%string, two_triangles_scene)]) newModelGroup)
      "second.obj" (Scene second_material_scene) = Ok (1%Z, s1, out) /\
    addInstance_mat s1 1 0 [] = Ok (0%N, s2) /\
    map materialIndex (instanceDatas s2) = [2%N] /\
    addInstance_mat s1 1 1 [] = UB "parts[partIdx] out of range".
Proof.
  set (s0 := ok_or (addModels newModelGroup [("two.obj"%string, two_triangles_scene)]) newModelGroup).
  set (s1 := snd (fst (ok_or (addModel s0 "second.obj" (Scene second_material_scene))
                          (0%Z, newModelGroup, [])))).
  assert (H : addModel s0 "second.obj" (Scene second_material_scene) = Ok (1%Z, s1, []))
    by (vm_compute; reflexivity).
  assert (Hb : (N.of_nat (List.length (aiMaterials s1)) < 2 ^ 32)%N) by (vm_compute; reflexivity).
  destruct (addModel_addInstance_mat _ _ _ _ _ _ [] H Hb) as [Hin Hout].
  destruct (Hin 0%nat _ eq_refl) as [s2 [H2 [_ [Hd _]]]].
  exists s1, [], s2. split; [exact H|].
  change (N.of_nat (List.length (models s0))) with 1%N in H2.
  change (N.of_nat 0) with 0%N in H2.
  split; [rewrite H2; reflexivity|].
  split; [rewrite Hd; reflexivity|].
  exact (Hout 1%nat (le_n _)).
Defined.

(** ** [Model::compareNoCase] *)

Lemma strcasecmp_refl (a : list Ascii.ascii) : strcasecmp a a = 0%Z.
Proof. induction a as [|c a IH]; simpl; [reflexivity|]. rewrite Nat.eqb_refl. exact IH. Qed.

Lemma strcasecmp_antisym (a : list Ascii.ascii) :
  forall c, strcasecmp c a = (- strcasecmp a c)%Z.
Proof.
  induction a as [|x a IH]; intros [|y c]; simpl; try lia.
  rewrite Nat.eqb_sym. destruct (Nat.eqb (tolower x) (tolower y)); [apply IH|lia].
Qed.

Lemma compareNoCase_refl (s : string) : compareNoCase s s = true.
Proof. unfold compareNoCase. rewrite strcasecmp_refl. reflexivity. Qed.

(** [compareNoCase] is [strcasecmp(s1, s2) <= 0]: it holds for equal
    strings and for every pair in at least one order, so it is a total
    preorder's [<=], not the strict [<] that [std::sort] and the other
    standard algorithms require of a comparator (irreflexivity fails). *)
Theorem compareNoCase_refl_total (s1 s2 : string) :
  compareNoCase s1 s1 = true /\
  (compareNoCase s1 s2 = true \/ compareNoCase s2 s1 = true).
Proof.
  split; [apply compareNoCase_refl|]. unfold compareNoCase.
  rewrite (strcasecmp_antisym (c_str s1) (c_str s2)).
  destruct (Z.leb_spec (- strcasecmp (c_str s1) (c_str s2)) 0); [right; reflexivity|].
  left. apply Z.leb_le. lia.
Qed.

Lemma tolower_pos (c : Ascii.ascii) : c <> Ascii.zero -> (0 < tolower c)%nat.
Proof.
  intros Hc. unfold tolower.
  destruct ((65 <=? Ascii.nat_of_ascii c)%nat && (Ascii.nat_of_ascii c <=? 90)%nat); [lia|].
  destruct (Ascii.nat_of_ascii c) eqn:E; [|lia].
  exfalso. apply Hc. rewrite <- (Ascii.ascii_nat_embedding c), E. reflexivity.
Qed.

Lemma c_str_pos (s : string) : Forall (fun c => (0 < tolower c)%nat) (c_str s).
Proof.
  induction s as [|c s IH]; simpl; [constructor|].
  destruct (Ascii.eqb c Ascii.zero) eqn:E; [constructor|].
  constructor; [|exact IH]. apply tolower_pos. intros Hc. subst c. discriminate.
Qed.

Lemma strcasecmp_trans (a : list Ascii.ascii) :
  Forall (fun c => (0 < tolower c)%nat) a ->
  forall b c, Forall (fun c => (0 < tolower c)%nat) b -> Forall (fun c => (0 < tolower c)%nat) c ->
  (strcasecmp a b <= 0)%Z -> (strcasecmp b c <= 0)%Z -> (strcasecmp a c <= 0)%Z.
Proof.
  induction a as [|x a IH]; intros Ha b c Hb Hc Hab Hbc.
  - destruct c; simpl; lia.
  - inversion Ha as [|? ? Hx Ha']; subst.
    destruct b as [|y b]; [simpl in Hab; lia|].
    inversion Hb as [|? ? Hy Hb']; subst.
    destruct c as [|z c]; [simpl in Hbc; lia|].
    inversion Hc as [|? ? Hz Hc']; subst.
    simpl in Hab, Hbc |- *.
    destruct (Nat.eqb_spec (tolower x) (tolower y)) as [Exy|Exy];
    destruct (Nat.eqb_spec (tolower y) (tolower z)) as [Eyz|Eyz];
    destruct (Nat.eqb_spec (tolower x) (tolower z)) as [Exz|Exz]; try lia.
    exact (IH Ha' b c Hb' Hc' Hab Hbc).
Qed.

(** [compareNoCase] is transitive. *)
Theorem compareNoCase_trans (s1 s2 s3 : string)
    (H12 : compareNoCase s1 s2 = true) (H23 : compareNoCase s2 s3 = true) :
  compareNoCase s1 s3 = true.
Proof.
  unfold compareNoCase in *. apply Z.leb_le in H12, H23. apply Z.leb_le.
  exact (strcasecmp_trans _ (c_str_pos s1) _ _ (c_str_pos s2) (c_str_pos s3) H12 H23).
Qed.

Lemma compareNoCase_trans_witness :
  compareNoCase "Apple" "banana" = true /\ compareNoCase "banana" "Cherry" = true /\
  compareNoCase "Apple" "Cherry" = true /\ compareNoCase "Cherry" "Apple" = false.
Proof.
  assert (H1 : compareNoCase "Apple" "banana" = true) by reflexivity.
  assert (H2 : compareNoCase "banana" "Cherry" = true) by reflexivity.
  split; [exact H1|]. split; [exact H2|]. split; [exact (compareNoCase_trans _ _ _ H1 H2)|].
  reflexivity.
Defined.

Lemma strcasecmp_lower (a a' : list Ascii.ascii) :
  map tolower a = map tolower a' -> forall c, strcasecmp a c = strcasecmp a' c.
Proof.
  revert a'. induction a as [|x a IH]; intros [|x' a'] E c; try discriminate; [reflexivity|].
  simpl in E. inversion E as [[Ex Ea]].
  destruct c as [|y c]; simpl; rewrite ?Ex; [reflexivity|].
  destruct (Nat.eqb (tolower x') (tolower y)); [apply IH; exact Ea|reflexivity].
Qed.

(** [compareNoCase] sees a string only through its C string lowered by
    [tolower]: two strings equal up to letter case (and up to what follows
    an embedded NUL) compare the same way against every string, and
    compare equal, in both orders, with each other. *)
Theorem compareNoCase_case_insensitive (s1 s1' : string)
    (E : map tolower (c_str s1) = map tolower (c_str s1')) :
  (forall s2, compareNoCase s1 s2 = compareNoCase s1' s2 /\
              compareNoCase s2 s1 = compareNoCase s2 s1') /\
  compareNoCase s1 s1' = true /\ compareNoCase s1' s1 = true.
Proof.
  assert (Hs : forall s2, compareNoCase s1 s2 = compareNoCase s1' s2 /\
                          compareNoCase s2 s1 = compareNoCase s2 s1').
  { intros s2. unfold compareNoCase.
    rewrite (strcasecmp_lower _ _ E (c_str s2)).
    rewrite (strcasecmp_antisym (c_str s1)), (strcasecmp_antisym (c_str s1')).
    rewrite (strcasecmp_lower _ _ E (c_str s2)). split; reflexivity. }
  split; [exact Hs|].
  destruct (Hs s1') as [H1 _]. destruct (Hs s1) as [H2 _].
  split.
  - rewrite H1. apply compareNoCase_refl.
  - rewrite <- H2. apply compareNoCase_refl.
Qed.

Lemma compareNoCase_case_insensitive_witness :
  map tolower (c_str "Texture.PNG") = map tolower (c_str "texture.png") /\
  compareNoCase "Texture.PNG" "texture.png" = true /\
  compareNoCase "texture.png" "Texture.PNG" = true.
Proof.
  assert (E : map tolower (c_str "Texture.PNG") = map tolower (c_str "texture.png"))
    by reflexivity.
  split; [exact E|]. exact (proj2 (compareNoCase_case_insensitive _ _ E)).
Defined.

(** ** [vks::Model::loadFromFile] *)

Lemma vks_fold_vertices (scale center : vec3) (uv : Q * Q) (c : color3) (ht hb : bool)
    (lay : list Component) (vs : list aiVertex) :
  forall vb dm,
  fold_left (fun acc v =>
               (fst acc ++ flat_map (vksComponentData scale center uv c ht hb v) lay,
                growDim (snd acc) (vPos v))) vs (vb, dm) =
  (vb ++ flat_map (fun v => flat_map (vksComponentData scale center uv c ht hb v) lay) vs,
   fold_left growDim (map vPos vs) dm).
Proof.
  induction vs as [|v vs IH]; intros vb dm; simpl.
  - rewrite app_nil_r; reflexivity.
  - rewrite IH, app_assoc. reflexivity.
Qed.

(** What one iteration of the mesh loop of [loadFromFile] does. *)
Lemma vksLoadMesh_ok (lay : list Component) (scale center : vec3) (uv : Q * Q) (sc : aiScene)
    (st : VksLoad) (mesh : aiMesh) (st1 : VksLoad) (p : ModelPart) :
  vksLoadMesh lay scale center uv sc st mesh = Ok (st1, p) ->
  exists mat,
    nth_error (mMaterials sc) (N.to_nat (mMaterialIndex mesh)) = Some mat /\
    l_vertexBuffer st1 = l_vertexBuffer st ++
      flat_map (fun v => flat_map (vksComponentData scale center uv
                  (aiGet (ai_diffuse mat) color_black)
                  (hasTextureCoords mesh) (hasTangentsAndBitangents mesh) v) lay) (mVertices mesh) /\
    dmin (l_dim st1) = dmin (fold_left growDim (map vPos (mVertices mesh)) (l_dim st)) /\
    dmax (l_dim st1) = dmax (fold_left growDim (map vPos (mVertices mesh)) (l_dim st)) /\
    fold_left addFace (mFaces mesh) (l_indexBuffer st, 0%N, l_indexCount st) =
      (l_indexBuffer st1, part_indexCount p, l_indexCount st1) /\
    l_vertexCount st1 = u32_add (l_vertexCount st) (N.of_nat (List.length (mVertices mesh))) /\
    p = mkPart (l_vertexCount st) (N.of_nat (List.length (mVertices mesh))) (l_indexCount st)
          (part_indexCount p) (mMaterialIndex mesh).
Proof.
  unfold vksLoadMesh, at_.
  destruct (nth_error (mMaterials sc) (N.to_nat (mMaterialIndex mesh))) as [mat|] eqn:Em;
    [|discriminate].
  cbn [bind]. rewrite vks_fold_vertices.
  destruct (fold_left addFace (mFaces mesh) (l_indexBuffer st, 0%N, l_indexCount st))
    as [[ib pic] ic] eqn:Ef.
  intros H; inversion H; subst; clear H.
  exists mat. repeat split; reflexivity.
Qed.

(** The mesh loop does not look at the incoming [dim] except to grow it. *)
Lemma vksLoadMesh_dim_indep (lay : list Component) (scale center : vec3) (uv : Q * Q)
    (sc : aiScene) (vb : list Q) (ib : list N) (vc ic : N) (dm dm' : Dimension)
    (mesh : aiMesh) (st1 : VksLoad) (p : ModelPart) :
  vksLoadMesh lay scale center uv sc (mkVksLoad vb ib vc ic dm) mesh = Ok (st1, p) ->
  exists dm1, vksLoadMesh lay scale center uv sc (mkVksLoad vb ib vc ic dm') mesh =
    Ok (mkVksLoad (l_vertexBuffer st1) (l_indexBuffer st1) (l_vertexCount st1)
          (l_indexCount st1) dm1, p).
Proof.
  unfold vksLoadMesh, at_. cbn [l_vertexBuffer l_indexBuffer l_vertexCount l_indexCount l_dim].
  destruct (nth_error (mMaterials sc) (N.to_nat (mMaterialIndex mesh))) as [mat|];
    [|discriminate].
  cbn [bind]. rewrite !vks_fold_vertices.
  destruct (fold_left addFace (mFaces mesh) (ib, 0%N, ic)) as [[ib1 pic] ic1].
  intros H; inversion H; subst; clear H. eexists. reflexivity.
Qed.

Lemma vksLoadMeshes_dim_indep (lay : list Component) (scale center : vec3) (uv : Q * Q)
    (sc : aiScene) (ms : list aiMesh) :
  forall vb ib vc ic dm dm' st2 ps,
  vksLoadMeshes lay scale center uv sc (mkVksLoad vb ib vc ic dm) ms = Ok (st2, ps) ->
  exists dm2, vksLoadMeshes lay scale center uv sc (mkVksLoad vb ib vc ic dm') ms =
    Ok (mkVksLoad (l_vertexBuffer st2) (l_indexBuffer st2) (l_vertexCount st2)
          (l_indexCount st2) dm2, ps).
Proof.
  induction ms as [|mesh ms IH]; intros vb ib vc ic dm dm' st2 ps H.
  - cbn [vksLoadMeshes] in H. inversion H; subst. exists dm'. reflexivity.
  - cbn [vksLoadMeshes] in H.
    destruct (vksLoadMesh lay scale center uv sc (mkVksLoad vb ib vc ic dm) mesh)
      as [[st1 p]|w] eqn:E1; [|discriminate].
    cbn [bind] in H.
    destruct (vksLoadMeshes lay scale center uv sc st1 ms) as [[st3 ps3]|w] eqn:E2;
      [|discriminate].
    cbn [bind] in H. inversion H; subst; clear H.
    destruct (vksLoadMesh_dim_indep _ _ _ _ _ _ _ _ _ _ dm' _ _ _ E1) as [dm1 E1'].
    destruct st1 as [vb1 ib1 vc1 ic1 d1].
    cbn [l_vertexBuffer l_indexBuffer l_vertexCount l_indexCount] in E1'.
    destruct (IH _ _ _ _ _ dm1 _ _ E2) as [dm2 E2'].
    exists dm2. cbn [vksLoadMeshes]. rewrite E1'. cbn [bind]. rewrite E2'. reflexivity.
Qed.

Lemma vksLoadMeshes_dim (lay : list Component) (scale center : vec3) (uv : Q * Q)
    (sc : aiScene) (ms : list aiMesh) :
  forall st st2 ps,
  vksLoadMeshes lay scale center uv sc st ms = Ok (st2, ps) ->
  dmin (l_dim st2) = dmin (fold_left growDim (map vPos (flat_map mVertices ms)) (l_dim st)) /\
  dmax (l_dim st2) = dmax (fold_left growDim (map vPos (flat_map mVertices ms)) (l_dim st)).
Proof.
  induction ms as [|mesh ms IH]; intros st st2 ps H.
  - cbn [vksLoadMeshes] in H. inversion H; subst. split; reflexivity.
  - cbn [vksLoadMeshes] in H.
    destruct (vksLoadMesh lay scale center uv sc st mesh) as [[st1 p]|w] eqn:E1;
      [|discriminate].
    cbn [bind] in H.
    destruct (vksLoadMeshes lay scale center uv sc st1 ms) as [[st3 ps3]|w] eqn:E2;
      [|discriminate].
    cbn [bind] in H. inversion H; subst; clear H.
    apply vksLoadMesh_ok in E1.
    destruct E1 as [mat [_ [_ [Hmin [Hmax _]]]]].
    destruct (IH _ _ _ E2) as [Hmin2 Hmax2].
    destruct (fold_growDim_ext (map vPos (flat_map mVertices ms)) (l_dim st1)
                (fold_left growDim (map vPos (mVertices mesh)) (l_dim st)) Hmin Hmax) as [E3 E4].
    cbn [flat_map]. rewrite map_app, fold_left_app.
    rewrite Hmin2, Hmax2, E3, E4. split; reflexivity.
Qed.




Lemma vksLoadMeshes_materials (lay : list Component) (scale center : vec3) (uv : Q * Q)
    (sc : aiScene) (ms : list aiMesh) :
  forall st st2 ps,
  vksLoadMeshes lay scale center uv sc st ms = Ok (st2, ps) ->
  Forall2 (fun mesh p => materialIdx p = mMaterialIndex mesh /\
             exists am, nth_error (mMaterials sc) (N.to_nat (mMaterialIndex mesh)) = Some am)
          ms ps.
Proof.
  induction ms as [|mesh ms IH]; intros st st2 ps H.
  - cbn [vksLoadMeshes] in H. inversion H; subst. constructor.
  - cbn [vksLoadMeshes] in H.
    destruct (vksLoadMesh lay scale center uv sc st mesh) as [[st1 p]|w] eqn:E1;
      [|discriminate].
    cbn [bind] in H.
    destruct (vksLoadMeshes lay scale center uv sc st1 ms) as [[st3 ps3]|w] eqn:E2;
      [|discriminate].
    cbn [bind] in H. inversion H; subst; clear H.
    apply vksLoadMesh_ok in E1.
    destruct E1 as [mat [Hm [_ [_ [_ [_ [_ Hp]]]]]]].
    constructor; [|exact (IH _ _ _ E2)].
    split; [rewrite Hp; reflexivity|]. exists mat. exact Hm.
Qed.

(** A successful [loadFromFile] on a scene, taken apart. *)
Lemma loadFromFile_scene_ok (m : VksModel) (f : string) (lay : list Component)
    (ci : option ModelCreateInfo) (sc : aiScene) (bo : bool) (r : VksModel) (o : list string) :
  loadFromFile m f lay ci (Scene sc) = Ok (bo, r, o) ->
  exists scale center uv st,
    vksLoadMeshes lay scale center uv sc (mkVksLoad [] [] 0 0 (vm_dim m)) (mMeshes sc) =
      Ok (st, vm_parts r) /\
    bo = true /\ o = [] /\
    r = mkVksModel (l_indexCount st) (l_vertexCount st)
          (map (vksLoadMaterial (buildMapDic (mMaterials sc))) (mMaterials sc)) (vm_parts r)
          (l_dim st) (Some (l_vertexBuffer st)) (Some (l_indexBuffer st))
          (if Nat.eqb (List.length (buildMapDic (mMaterials sc))) 0 then vm_texArray m
           else Some (buildMapDic (mMaterials sc), vksTexSize)).
Proof.
  intros H. unfold loadFromFile in H.
  destruct ci as [ci|]; cbv beta iota zeta in H;
  match type of H with
  | bind (vksLoadMeshes ?l ?a ?c ?u ?s ?st0 ?ms) _ = _ =>
      destruct (vksLoadMeshes l a c u s st0 ms) as [[st ps]|w] eqn:E; [|discriminate];
      exists a, c, u, st
  end; cbn [bind] in H; inversion H; subst; clear H; cbn [vm_parts];
  (split; [exact E|]); repeat split; reflexivity.
Qed.

Lemma buildMapDic_no_empty (ams : list aiMaterial) :
  forall acc, ~ In EmptyString acc -> ~ In EmptyString (fold_left addMapPath ams acc).
Proof.
  induction ams as [|am ams IH]; intros acc Hacc; simpl; [exact Hacc|].
  apply IH. unfold addMapPath. rewrite length_zero_empty.
  destruct (String.eqb (ai_diffuseTex am) EmptyString) eqn:Ee; [exact Hacc|].
  destruct (mem (ai_diffuseTex am) acc); [exact Hacc|].
  intros Hin. apply in_app_or in Hin. destruct Hin as [Hin|[Hin|[]]]; [contradiction|].
  rewrite <- Hin, String.eqb_refl in Ee. discriminate.
Qed.

Lemma find_index_some_In (p : string) (l : list string) (i : N) :
  find_index p l = Some i -> In p l.
Proof.
  revert i. induction l as [|q l IH]; intros i H; [discriminate|]. simpl in H.
  destruct (String.eqb p q) eqn:E; [apply String.eqb_eq in E; left; symmetry; exact E|].
  right. destruct (find_index p l) as [j|] eqn:Ej; [exact (IH j eq_refl)|discriminate].
Qed.

(** Reloading: [loadFromFile] on a model that already holds a scene gives
    the same counters, materials, parts, vertex and index data as on a
    fresh [vks::Model]; the old texture array is kept when the new scene
    has no diffuse texture. *)
Theorem loadFromFile_reload_resets (m : VksModel) (f : string) (lay : list Component)
    (ci : option ModelCreateInfo) (sc : aiScene) (bo : bool) (r : VksModel) (o : list string)
    (H : loadFromFile m f lay ci (Scene sc) = Ok (bo, r, o)) :
  exists r0,
    loadFromFile newVksModel f lay ci (Scene sc) = Ok (bo, r0, o) /\
    vm_indexCount r = vm_indexCount r0 /\ vm_vertexCount r = vm_vertexCount r0 /\
    vm_materials r = vm_materials r0 /\ vm_parts r = vm_parts r0 /\
    vm_vertices r = vm_vertices r0 /\ vm_indices r = vm_indices r0 /\
    vm_texArray r = (if Nat.eqb (List.length (buildMapDic (mMaterials sc))) 0
                     then vm_texArray m else vm_texArray r0).
Proof.
  unfold loadFromFile in *.
  destruct ci as [ci|]; cbv beta iota zeta in H |- *;
  match type of H with
  | bind (vksLoadMeshes ?l ?a ?c ?u ?s (mkVksLoad ?vb ?ib ?vc ?ic ?dm) ?ms) _ = _ =>
      destruct (vksLoadMeshes l a c u s (mkVksLoad vb ib vc ic dm) ms) as [[st ps]|w] eqn:E;
        [|discriminate];
      destruct (vksLoadMeshes_dim_indep _ _ _ _ _ _ _ _ _ _ _ (vm_dim newVksModel) _ _ E)
        as [dm2 E'];
      rewrite E'
  end; cbn [bind] in H |- *; inversion H; subst; clear H;
  (eexists; split; [reflexivity|]);
  destruct (Nat.eqb (List.length (buildMapDic (mMaterials sc))) 0); repeat split; reflexivity.
Qed.

(** A model that loaded the textured [second_material_scene], then the
    untextured [two_triangles_scene]: it keeps the texture array of the
    first load and has the geometry of a fresh load of the second. *)
Lemma loadFromFile_reload_resets_witness :
  exists m1 r r0,
    loadFromFile newVksModel "a.obj" [VERTEX_COMPONENT_POSITION] None
      (Scene second_material_scene) = Ok (true, m1, []) /\
    loadFromFile m1 "b.obj" [VERTEX_COMPONENT_POSITION] None
      (Scene two_triangles_scene) = Ok (true, r, []) /\
    loadFromFile newVksModel "b.obj" [VERTEX_COMPONENT_POSITION] None
      (Scene two_triangles_scene) = Ok (true, r0, []) /\
    vm_parts r = vm_parts r0 /\ vm_vertices r = vm_vertices r0 /\
    vm_texArray r = Some (["b.png"%string], vksTexSize) /\ vm_texArray r0 = None.
Proof.
  set (m1 := snd (fst (ok_or (loadFromFile newVksModel "a.obj" [VERTEX_COMPONENT_POSITION] None
                                (Scene second_material_scene)) (false, newVksModel, [])))).
  set (r := snd (fst (ok_or (loadFromFile m1 "b.obj" [VERTEX_COMPONENT_POSITION] None
                               (Scene two_triangles_scene)) (false, newVksModel, [])))).
  assert (H1 : loadFromFile newVksModel "a.obj" [VERTEX_COMPONENT_POSITION] None
                 (Scene second_material_scene) = Ok (true, m1, [])) by (vm_compute; reflexivity).
  assert (H2 : loadFromFile m1 "b.obj" [VERTEX_COMPONENT_POSITION] None
                 (Scene two_triangles_scene) = Ok (true, r, [])) by (vm_compute; reflexivity).
  destruct (loadFromFile_reload_resets _ _ _ _ _ _ _ _ H2)
    as [r0 [H3 [_ [_ [_ [Hp [Hv [_ Ht]]]]]]]].
  exists m1, r, r0. split; [exact H1|]. split; [exact H2|]. split; [exact H3|].
  split; [exact Hp|]. split; [exact Hv|]. split; [vm_compute; reflexivity|].
  vm_compute in H3. injection H3 as <-. reflexivity.
Defined.

(** [loadFromFile] does not reset [dim]: the box of the model after a
    load is the [fmin]/[fmax] fold of the new scene's raw positions
    started from the box the model had before, so it always contains the
    previous box. *)
Theorem loadFromFile_dim_accumulates (m : VksModel) (f : string) (lay : list Component)
    (ci : option ModelCreateInfo) (sc : aiScene) (bo : bool) (r : VksModel) (o : list string)
    (H : loadFromFile m f lay ci (Scene sc) = Ok (bo, r, o)) :
  dmin (vm_dim r) = dmin (fold_left growDim (map vPos (all_vertices sc)) (vm_dim m)) /\
  dmax (vm_dim r) = dmax (fold_left growDim (map vPos (all_vertices sc)) (vm_dim m)) /\
  x (dmin (vm_dim r)) <= x (dmin (vm_dim m)) /\ x (dmax (vm_dim m)) <= x (dmax (vm_dim r)) /\
  y (dmin (vm_dim r)) <= y (dmin (vm_dim m)) /\ y (dmax (vm_dim m)) <= y (dmax (vm_dim r)) /\
  z (dmin (vm_dim r)) <= z (dmin (vm_dim m)) /\ z (dmax (vm_dim m)) <= z (dmax (vm_dim r)).
Proof.
  destruct (loadFromFile_scene_ok _ _ _ _ _ _ _ _ H) as [scale [center [uv [st [E [_ [_ Hr]]]]]]].
  destruct (vksLoadMeshes_dim _ _ _ _ _ _ _ _ _ E) as [Hmin Hmax].
  rewrite Hr. cbn [vm_dim]. cbn [l_dim] in Hmin, Hmax.
  fold (all_vertices sc) in Hmin, Hmax. rewrite Hmin, Hmax.
  destruct (fold_growDim_mono x (fun _ _ => eq_refl) (fun _ _ => eq_refl)
              (map vPos (all_vertices sc)) (vm_dim m)) as [Hx1 Hx2].
  destruct (fold_growDim_mono y (fun _ _ => eq_refl) (fun _ _ => eq_refl)
              (map vPos (all_vertices sc)) (vm_dim m)) as [Hy1 Hy2].
  destruct (fold_growDim_mono z (fun _ _ => eq_refl) (fun _ _ => eq_refl)
              (map vPos (all_vertices sc)) (vm_dim m)) as [Hz1 Hz2].
  repeat split; assumption.
Qed.

(** After [one_vertex_scene] (the vertex [(1,2,3)]), loading the flat
    [two_triangles_scene] (all [z = 0]) leaves [z] of the box's max at
    [3], where a fresh load of that scene has [0]. *)
Lemma loadFromFile_dim_accumulates_witness :
  exists m1 r r0,
    loadFromFile newVksModel "one.obj" [VERTEX_COMPONENT_POSITION] None
      (Scene one_vertex_scene) = Ok (true, m1, []) /\
    loadFromFile m1 "two.obj" [VERTEX_COMPONENT_POSITION] None
      (Scene two_triangles_scene) = Ok (true, r, []) /\
    loadFromFile newVksModel "two.obj" [VERTEX_COMPONENT_POSITION] None
      (Scene two_triangles_scene) = Ok (true, r0, []) /\
    z (dmax (vm_dim m1)) <= z (dmax (vm_dim r)) /\
    z (dmax (vm_dim r)) == 3 /\ z (dmax (vm_dim r0)) == 0.
Proof.
  set (m1 := snd (fst (ok_or (loadFromFile newVksModel "one.obj" [VERTEX_COMPONENT_POSITION] None
                                (Scene one_vertex_scene)) (false, newVksModel, [])))).
  set (r := snd (fst (ok_or (loadFromFile m1 "two.obj" [VERTEX_COMPONENT_POSITION] None
                               (Scene two_triangles_scene)) (false, newVksModel, [])))).
  set (r0 := snd (fst (ok_or (loadFromFile newVksModel "two.obj" [VERTEX_COMPONENT_POSITION] None
                                (Scene two_triangles_scene)) (false, newVksModel, [])))).
  assert (H1 : loadFromFile newVksModel "one.obj" [VERTEX_COMPONENT_POSITION] None
                 (Scene one_vertex_scene) = Ok (true, m1, [])) by (vm_compute; reflexivity).
  assert (H2 : loadFromFile m1 "two.obj" [VERTEX_COMPONENT_POSITION] None
                 (Scene two_triangles_scene) = Ok (true, r, [])) by (vm_compute; reflexivity).
  assert (H3 : loadFromFile newVksModel "two.obj" [VERTEX_COMPONENT_POSITION] None
                 (Scene two_triangles_scene) = Ok (true, r0, [])) by (vm_compute; reflexivity).
  exists m1, r, r0. split; [exact H1|]. split; [exact H2|]. split; [exact H3|].
  split; [exact (proj2 (proj2 (proj2 (proj2 (proj2 (proj2 (proj2
            (loadFromFile_dim_accumulates _ _ _ _ _ _ _ _ H2))))))))|].
  split; vm_compute; reflexivity.
Defined.



(** Part [j] of a loaded model keeps the [mMaterialIndex] of mesh [j],
    with no offset, and that index reads, in the model's [materials], the
    material built from the mesh's own scene material. *)
Theorem loadFromFile_part_materials (m : VksModel) (f : string) (lay : list Component)
    (ci : option ModelCreateInfo) (sc : aiScene) (bo : bool) (r : VksModel) (o : list string)
    (H : loadFromFile m f lay ci (Scene sc) = Ok (bo, r, o))
    (j : nat) (p : ModelPart) (mesh : aiMesh)
    (Hp : nth_error (vm_parts r) j = Some p) (Hm : nth_error (mMeshes sc) j = Some mesh) :
  materialIdx p = mMaterialIndex mesh /\
  exists am,
    nth_error (mMaterials sc) (N.to_nat (mMaterialIndex mesh)) = Some am /\
    nth_error (vm_materials r) (N.to_nat (materialIdx p)) =
      Some (vksLoadMaterial (buildMapDic (mMaterials sc)) am).
Proof.
  destruct (loadFromFile_scene_ok _ _ _ _ _ _ _ _ H) as [scale [center [uv [st [E [_ [_ Hr]]]]]]].
  pose proof (vksLoadMeshes_materials _ _ _ _ _ _ _ _ _ E) as Hf.
  destruct (Forall2_nth_error_l _ _ _ Hf j mesh Hm) as [p' [Hp' [Hidx [am Ham]]]].
  rewrite Hp in Hp'. injection Hp' as <-.
  split; [exact Hidx|]. exists am. split; [exact Ham|].
  rewrite Hr. cbn [vm_materials]. rewrite nth_error_map, Hidx, Ham. reflexivity.
Qed.

Lemma loadFromFile_part_materials_witness :
  exists r p,
    loadFromFile newVksModel "second.obj" [VERTEX_COMPONENT_POSITION] None
      (Scene second_material_scene) = Ok (true, r, []) /\
    nth_error (vm_parts r) 0 = Some p /\ materialIdx p = 1%N /\
    nth_error (vm_materials r) 1 =
      Some (vksLoadMaterial ["b.png"%string] (textured_material "b.png")).
Proof.
  set (r := snd (fst (ok_or (loadFromFile newVksModel "second.obj" [VERTEX_COMPONENT_POSITION]
                               None (Scene second_material_scene)) (false, newVksModel, [])))).
  set (p := ok_or (option_rect (fun _ => Exec ModelPart) Ok (UB "") (nth_error (vm_parts r) 0))
                  (mkPart 0 0 0 0 0)).
  assert (H : loadFromFile newVksModel "second.obj" [VERTEX_COMPONENT_POSITION] None
                (Scene second_material_scene) = Ok (true, r, [])) by (vm_compute; reflexivity).
  assert (Hp : nth_error (vm_parts r) 0 = Some p) by (vm_compute; reflexivity).
  assert (Hm : nth_error (mMeshes second_material_scene) 0 =
               Some (mkAiMesh [vertex_at 0 0 0; vertex_at 1 0 0; vertex_at 0 1 0] false false
                       [[0; 1; 2]%N] 1)) by reflexivity.
  destruct (loadFromFile_part_materials _ _ _ _ _ _ _ _ H 0 p _ Hp Hm)
    as [Hidx [am [Ham Hmat]]].
  exists r, p. split; [exact H|]. split; [exact Hp|]. split; [exact Hidx|].
  rewrite Hidx in Hmat. cbn in Ham. injection Ham as <-. exact Hmat.
Defined.

(** The material [i] built by [loadFromFile] from a scene material with a
    diffuse texture has [Md] equal to the layer of the model's texture
    array that holds that path; a material without one gets [Md = 0], the
    layer of the first texture when the scene has any. *)
Theorem loadFromFile_texture_layers (m : VksModel) (f : string) (lay : list Component)
    (ci : option ModelCreateInfo) (sc : aiScene) (bo : bool) (r : VksModel) (o : list string)
    (H : loadFromFile m f lay ci (Scene sc) = Ok (bo, r, o))
    (i : nat) (am : aiMaterial) (Ham : nth_error (mMaterials sc) i = Some am) :
  exists mat,
    nth_error (vm_materials r) i = Some mat /\
    (ai_diffuseTex am <> EmptyString ->
       vm_texArray r = Some (buildMapDic (mMaterials sc), vksTexSize) /\
       nth_error (buildMapDic (mMaterials sc)) (N.to_nat (vMd mat)) = Some (ai_diffuseTex am)) /\
    (ai_diffuseTex am = EmptyString -> vMd mat = 0%N).
Proof.
  destruct (loadFromFile_scene_ok _ _ _ _ _ _ _ _ H) as [scale [center [uv [st [_ [_ [_ Hr]]]]]]].
  exists (vksLoadMaterial (buildMapDic (mMaterials sc)) am).
  split; [rewrite Hr; cbn [vm_materials]; rewrite nth_error_map, Ham; reflexivity|].
  split.
  - intros Hne.
    assert (Hin : In (ai_diffuseTex am) (buildMapDic (mMaterials sc)))
      by (apply fold_addMapPath_incl; [apply nth_error_In with i; exact Ham|exact Hne]).
    split.
    + rewrite Hr. cbn [vm_texArray].
      destruct (buildMapDic (mMaterials sc)) as [|q l]; [destruct Hin|reflexivity].
    + destruct (find_index_In _ _ Hin) as [k [Hk Hn]].
      unfold vksLoadMaterial. cbn [vMd]. rewrite Hk. exact Hn.
  - intros He. unfold vksLoadMaterial. cbn [vMd]. rewrite He.
    destruct (find_index EmptyString (buildMapDic (mMaterials sc))) as [k|] eqn:Ek;
      [|reflexivity].
    exfalso. apply (buildMapDic_no_empty (mMaterials sc) [] (fun Hf => Hf)).
    exact (find_index_some_In _ _ _ Ek).
Qed.

(** In [second_material_scene] the untextured material [0] and the
    material [1] textured with ["b.png"] both get [Md = 0]. *)
Lemma loadFromFile_texture_layers_witness :
  exists r mat0 mat1,
    loadFromFile newVksModel "second.obj" [VERTEX_COMPONENT_POSITION] None
      (Scene second_material_scene) = Ok (true, r, []) /\
    nth_error (vm_materials r) 0 = Some mat0 /\ nth_error (vm_materials r) 1 = Some mat1 /\
    vMd mat0 = 0%N /\ vMd mat1 = 0%N /\
    vm_texArray r = Some (["b.png"%string], vksTexSize).
Proof.
  set (r := snd (fst (ok_or (loadFromFile newVksModel "second.obj" [VERTEX_COMPONENT_POSITION]
                               None (Scene second_material_scene)) (false, newVksModel, [])))).
  assert (H : loadFromFile newVksModel "second.obj" [VERTEX_COMPONENT_POSITION] None
                (Scene second_material_scene) = Ok (true, r, [])) by (vm_compute; reflexivity).
  destruct (loadFromFile_texture_layers _ _ _ _ _ _ _ _ H 0 plain_material eq_refl)
    as [mat0 [H0 [_ Hmd0]]].
  destruct (loadFromFile_texture_layers _ _ _ _ _ _ _ _ H 1 (textured_material "b.png") eq_refl)
    as [mat1 [H1 [Hmd1 _]]].
  destruct (Hmd1 ltac:(discriminate)) as [Hta Hn].
  exists r, mat0, mat1. split; [exact H|]. split; [exact H0|]. split; [exact H1|].
  split; [exact (Hmd0 eq_refl)|].
  split; [|exact Hta].
  destruct (vMd mat1) as [|k]; [reflexivity|].
  cbn in Hn. destruct (Pos.to_nat k) as [|[|n]] eqn:Ek; [lia|discriminate|discriminate].
Defined.
